(** * TranQL API: the HTTP resources of [tranql/api.py]

    A shallow embedding of the request handlers of [tranql/api.py]:
    [StandardAPIResource.handle_exception], [TranQLQuery.post],
    [SchemaGraph.get], [MergeMessages.post], [ModelConceptsQuery.post] and
    [ModelRelationsQuery.post].  Python values are a small inductive type,
    dictionaries are insertion-ordered association lists, and code that can
    raise returns an [outcome]. *)

From Stdlib Require Import String Ascii List ZArith Bool Lia.
From Stdlib Require Import Sorting.Permutation Sorting.Sorted Sorting.Mergesort.
From Stdlib Require Import Numbers.DecimalString Classes.RelationClasses.
Import ListNotations.
Local Open Scope string_scope.
Local Open Scope list_scope.

(** ** Python values *)

(** The values the handlers see: JSON data (None, booleans, integers,
    strings, lists, string-keyed dictionaries), tuples, exception instances
    and instances of any other class.  An exception instance carries its
    class name and the text [str(e)]; a [TranQLException] (or an instance of
    one of its subclasses) carries its [details] attribute as well.  An
    instance of another class is seen through its class name, its truth
    value and [str()].  Floats are not represented. *)
#[local] Unset Elimination Schemes.
Inductive pyval : Type :=
| VNone
| VBool (b : bool)
| VInt (z : Z)
| VStr (s : string)
| VList (items : list pyval)
| VTuple (items : list pyval)
| VDict (entries : list (string * pyval))
| VException (cls : string) (msg : string)
| VTranQLException (cls : string) (msg : string) (details : pyval)
| VObject (cls : string) (truth : bool) (text : string).
#[local] Set Elimination Schemes.

(** A Python [dict] with string keys, in insertion order. *)
Definition pydict : Type := list (string * pyval).

(** Induction over values that reaches into lists, tuples, dictionaries and
    exception details. *)
Section PyvalInduction.
Variable P : pyval -> Prop.
Hypothesis HNone : P VNone.
Hypothesis HBool : forall b, P (VBool b).
Hypothesis HInt : forall z, P (VInt z).
Hypothesis HStr : forall s, P (VStr s).
Hypothesis HList : forall l, Forall P l -> P (VList l).
Hypothesis HTuple : forall l, Forall P l -> P (VTuple l).
Hypothesis HDict : forall d, Forall (fun kv => P (snd kv)) d -> P (VDict d).
Hypothesis HExc : forall c m, P (VException c m).
Hypothesis HTExc : forall c m d, P d -> P (VTranQLException c m d).
Hypothesis HObj : forall c b t, P (VObject c b t).

Fixpoint pyval_nested_ind (v : pyval) : P v :=
  match v with
  | VNone => HNone
  | VBool b => HBool b
  | VInt z => HInt z
  | VStr s => HStr s
  | VList l =>
      HList l ((fix go (l : list pyval) : Forall P l :=
                  match l with
                  | [] => Forall_nil P
                  | x :: r => Forall_cons x (pyval_nested_ind x) (go r)
                  end) l)
  | VTuple l =>
      HTuple l ((fix go (l : list pyval) : Forall P l :=
                   match l with
                   | [] => Forall_nil P
                   | x :: r => Forall_cons x (pyval_nested_ind x) (go r)
                   end) l)
  | VDict d =>
      HDict d ((fix go (d : pydict) : Forall (fun kv => P (snd kv)) d :=
                  match d with
                  | [] => Forall_nil _
                  | kv :: r => Forall_cons kv (pyval_nested_ind (snd kv)) (go r)
                  end) d)
  | VException c m => HExc c m
  | VTranQLException c m d => HTExc c m d (pyval_nested_ind d)
  | VObject c b t => HObj c b t
  end.
End PyvalInduction.

(** ** Dictionaries *)

Module Dict.

(** [d.get(k)] *)
Fixpoint get (k : string) (d : pydict) : option pyval :=
  match d with
  | [] => None
  | (k', v) :: r => if String.eqb k k' then Some v else get k r
  end.

(** [d.get(k, default)] *)
Definition get_default (k : string) (default : pyval) (d : pydict) : pyval :=
  match get k d with
  | Some v => v
  | None => default
  end.

(** [d[k] = v]: an existing key keeps its position, a new key goes last. *)
Fixpoint set (k : string) (v : pyval) (d : pydict) : pydict :=
  match d with
  | [] => [(k, v)]
  | (k', v') :: r =>
      if String.eqb k k' then (k', v) :: r else (k', v') :: set k v r
  end.

(** [d.update(other)] *)
Definition update (d other : pydict) : pydict :=
  fold_left (fun acc kv => set (fst kv) (snd kv) acc) other d.

(** [list(d.keys())] *)
Definition keys (d : pydict) : list string := map fst d.

End Dict.

(** ** Built-in operations *)

(** [type(v).__name__] *)
Definition type_name (v : pyval) : string :=
  match v with
  | VNone => "NoneType"
  | VBool _ => "bool"
  | VInt _ => "int"
  | VStr _ => "str"
  | VList _ => "list"
  | VTuple _ => "tuple"
  | VDict _ => "dict"
  | VException c _ => c
  | VTranQLException c _ _ => c
  | VObject c _ _ => c
  end.

(** [bool(v)], the test of [if v]. *)
Definition py_truthy (v : pyval) : bool :=
  match v with
  | VNone => false
  | VBool b => b
  | VInt z => negb (Z.eqb z 0)
  | VStr s => negb (String.eqb s "")
  | VList l => match l with [] => false | _ => true end
  | VTuple l => match l with [] => false | _ => true end
  | VDict d => match d with [] => false | _ => true end
  | VException _ _ => true
  | VTranQLException _ _ _ => true
  | VObject _ b _ => b
  end.

(** What a call can do: return a value or raise an exception instance. *)
Inductive outcome (A : Type) : Type :=
| Ok (a : A)
| Raise (e : pyval).
Arguments Ok {A} a.
Arguments Raise {A} e.

Definition bind {A B : Type} (c : outcome A) (k : A -> outcome B) : outcome B :=
  match c with
  | Ok a => k a
  | Raise e => Raise e
  end.

(** The instances of [Exception] and of its subclasses, which is what
    [except Exception] binds.  An instance of a class that derives from
    [BaseException] only ([SystemExit], [KeyboardInterrupt]) is a
    [VObject]. *)
Definition is_exception (e : pyval) : bool :=
  match e with
  | VException _ _ | VTranQLException _ _ _ => true
  | _ => false
  end.

(** [try: c  except Exception as e: handler(e)]: anything raised that is no
    [Exception] instance goes on to the caller. *)
Definition try_except {A : Type} (c : outcome A) (handler : pyval -> outcome A)
  : outcome A :=
  match c with
  | Ok a => Ok a
  | Raise e => if is_exception e then handler e else Raise e
  end.

Notation "x <- c ;; k" := (bind c (fun x => k))
  (at level 61, c at next level, right associativity).

(** [len(v)]: strings, lists, tuples and dictionaries are sized, anything
    else raises [TypeError]. *)
Definition py_len (v : pyval) : outcome Z :=
  match v with
  | VStr s => Ok (Z.of_nat (String.length s))
  | VList l => Ok (Z.of_nat (List.length l))
  | VTuple l => Ok (Z.of_nat (List.length l))
  | VDict d => Ok (Z.of_nat (List.length d))
  | _ => Raise (VException "TypeError"
                  ("object of type '" ++ type_name v ++ "' has no len()"))
  end.

(** The items of [*v] in a list display. *)
Definition py_iter (v : pyval) : outcome (list pyval) :=
  match v with
  | VStr s => Ok (map (fun c => VStr (String c EmptyString)) (list_ascii_of_string s))
  | VList l => Ok l
  | VTuple l => Ok l
  | VDict d => Ok (map VStr (Dict.keys d))
  | _ => Raise (VException "TypeError"
                  ("Value after * must be an iterable, not " ++ type_name v))
  end.

(** [result.update(other)]: only a dictionary has the method. *)
Definition py_update (result : pyval) (other : pydict) : outcome pyval :=
  match result with
  | VDict d => Ok (VDict (Dict.update d other))
  | _ => Raise (VException "AttributeError"
                  ("'" ++ type_name result ++ "' object has no attribute 'update'"))
  end.

(** [d[k]]: a missing key raises [KeyError]. *)
Definition py_getitem (k : string) (d : pydict) : outcome pyval :=
  match Dict.get k d with
  | Some v => Ok v
  | None => Raise (VException "KeyError" ("'" ++ k ++ "'"))
  end.

(** The first object inside a value that [json.dump] refuses, if any. *)
Fixpoint json_offender (v : pyval) : option pyval :=
  match v with
  | VNone | VBool _ | VInt _ | VStr _ => None
  | VList l | VTuple l =>
      (fix first (l : list pyval) : option pyval :=
         match l with
         | [] => None
         | x :: r =>
             match json_offender x with
             | Some o => Some o
             | None => first r
             end
         end) l
  | VDict d =>
      (fix first (d : pydict) : option pyval :=
         match d with
         | [] => None
         | kv :: r =>
             match json_offender (snd kv) with
             | Some o => Some o
             | None => first r
             end
         end) d
  | VException _ _ | VTranQLException _ _ _ | VObject _ _ _ => Some v
  end.

Definition json_serializable (v : pyval) : bool :=
  match json_offender v with
  | None => true
  | Some _ => false
  end.

(** [json.dump(result, stream)]; the file itself is not modelled. *)
Definition json_dump (result : pyval) : outcome unit :=
  match json_offender result with
  | None => Ok tt
  | Some o =>
      Raise (VException "TypeError"
               ("Object of type " ++ type_name o ++ " is not JSON serializable"))
  end.

(** [sorted] on a list of strings: ascending in the order of [str], which
    compares character codes lexicographically. *)
Module StringOrder <: Orders.TotalLeBool.
Definition t := string.
Definition leb := String.leb.
Theorem leb_total : forall a1 a2, leb a1 a2 = true \/ leb a2 a1 = true.
Proof. exact String.leb_total. Qed.
End StringOrder.

Module StringSort := Sort StringOrder.

Definition sorted (l : list string) : list string := StringSort.sort l.

(** ** [StandardAPIResource.handle_exception] *)

Section Handlers.

(** [repr] of containers, as [str] of a list, tuple or dictionary needs it;
    its text is not inspected by the handlers. *)
Variable py_repr : pyval -> string.

(** [str(v)] *)
Definition py_str (v : pyval) : string :=
  match v with
  | VNone => "None"
  | VBool true => "True"
  | VBool false => "False"
  | VInt z => NilZero.string_of_int (Z.to_int z)
  | VStr s => s
  | VList _ | VTuple _ | VDict _ => py_repr v
  | VException _ m => m
  | VTranQLException _ m _ => m
  | VObject _ _ t => t
  end.

(** One rendered error: [{"message": ..., "details": ...}]. *)
Definition error_entry (message details : string) : pyval :=
  VDict [("message", VStr message); ("details", VStr details)].

(** [result["errors"]] of a handler result. *)
Definition errors_of (result : pydict) : list pyval :=
  match Dict.get "errors" result with
  | Some (VList l) => l
  | _ => []
  end.

(** [handle_exception(self, e, warning=False)], as what the method returns
    when the call stack is deep enough for its recursion
    ([handle_exception_within] below has the bound).  The [str] branch calls
    the handler again on [Exception(e)], which lands in the [Exception]
    branch with [str(Exception(e)) = e]; that call is unfolded here.
    [traceback.print_exc()] only writes to stderr. *)
Fixpoint handle_exception (e : pyval) (warning : bool) : pydict :=
  let errors :=
    match e with
    | VList l =>
        flat_map (fun exception => errors_of (handle_exception exception false)) l
    | VTranQLException _ m details =>
        [error_entry m (if py_truthy details then py_str details else "")]
    | VException _ m => [error_entry m ""]
    | VStr s => [error_entry s ""]
    | _ => []
    end in
  [("errors", VList errors);
   ("status", VStr (if warning then "Warning" else "Error"))].

(** The errors of handling one value, whatever the flag. *)
Definition rendered (e : pyval) : list pyval :=
  errors_of (handle_exception e false).

(** The values that yield exactly one entry: exception instances and
    strings. *)
Definition is_error (e : pyval) : bool :=
  match e with
  | VException _ _ | VTranQLException _ _ _ | VStr _ => true
  | _ => false
  end.

(** The entry of one exception instance or string. *)
Definition render (e : pyval) : pyval :=
  match e with
  | VTranQLException _ m details =>
      error_entry m (if py_truthy details then py_str details else "")
  | _ => error_entry (py_str e) ""
  end.

(** A rendered entry is a [{message, details}] record of two strings. *)
Definition is_entry (r : pyval) : Prop :=
  exists message details, r = error_entry message details.

(** ** The interpreter and the taxonomy, as the resources call them *)

(** [tranql.main.TranQL] lives outside this file.  [TranQL(options=...)]
    gives an interpreter or raises; [tranql.execute(query)] either returns
    the context or raises, and in both cases [tranql.context.mem] is there
    afterwards. *)
Variable Interpreter : Type.
Variable TranQL : pyval -> outcome Interpreter.

Inductive execution : Type :=
| Returned (mem : pydict)
| Raised (e : pyval) (mem : pydict).

Variable execute : Interpreter -> pyval -> execution.

Definition context_mem (run : execution) : pydict :=
  match run with
  | Returned mem => mem
  | Raised _ mem => mem
  end.

(** [SelectStatement.merge_results(messages, tranql)] of [tranql_ast]. *)
Variable merge_results : pyval -> Interpreter -> outcome pyval.

(** [tranql.concept.ConceptModel]: the two name-keyed tables the resources
    read, and the constructor call. *)
Variable Concept Relation : Type.

Record ConceptModel : Type := {
  by_name : list (string * Concept);
  relations_by_name : list (string * Relation)
}.

Variable ConceptModel_new : string -> outcome ConceptModel.

(** ** [MergeMessages.post] *)

Definition MergeMessages_post (request_json : pydict) : outcome pyval :=
  let options := Dict.get_default "interpreter_options" (VDict []) request_json in
  let messages := Dict.get_default "messages" (VList []) request_json in
  tranql <- TranQL options ;;
  merge_results messages tranql.

(** ** [TranQLQuery.post] *)

(** The body of the [try] block once [execute] has run. *)
Definition query_try_body (run : execution) : outcome pyval :=
  match run with
  | Raised e _ => Raise e
  | Returned mem =>
      let result := Dict.get_default "result" (VDict []) mem in
      n <- py_len (Dict.get_default "requestErrors" (VList []) mem) ;;
      if (n >? 0)%Z then
        requestErrors <- py_getitem "requestErrors" mem ;;
        let errors := handle_exception requestErrors true in
        py_update result errors
      else Ok result
  end.

(** The [except Exception as e] block. *)
Definition query_except (run : execution) (e : pyval) : outcome pyval :=
  pending <- py_iter (Dict.get_default "requestErrors" (VList []) (context_mem run)) ;;
  let errors := VList (e :: pending) in
  Ok (VDict (handle_exception errors false)).

Definition TranQLQuery_post (request_json : pydict) : outcome pyval :=
  let query := Dict.get_default "query" (VStr "") request_json in
  let dynamicIdResolution :=
    Dict.get_default "dynamicIdResolution" (VBool false) request_json in
  tranql <- TranQL (VDict [("dynamic_id_resolution", dynamicIdResolution)]) ;;
  let run := execute tranql query in
  result <- try_except (query_try_body run) (query_except run) ;;
  _ <- json_dump result ;;
  Ok result.

(** ** [SchemaGraph.get] *)

(** What the calls before [obj = ...] deliver: the message of
    [GraphTranslator(schema.schema_graph).graph_to_message()] and
    [schema.loadErrors].  [Schema] and [GraphTranslator] live in
    [tranql.tranql_schema]. *)
Record schema_build : Type := {
  schema_message : pyval;
  loadErrors : pyval
}.

(** [for key in errors: obj[key] = errors[key]] *)
Definition copy_keys (errors obj : pydict) : pydict :=
  fold_left (fun obj key =>
               match Dict.get key errors with
               | Some v => Dict.set key v obj
               | None => obj
               end) (Dict.keys errors) obj.

Definition SchemaGraph_get (build : outcome schema_build) : outcome pyval :=
  schema <- build ;;
  let obj := [("schema", schema_message schema)] in
  n <- py_len (loadErrors schema) ;;
  if (n >? 0)%Z then
    let errors := handle_exception (loadErrors schema) true in
    Ok (VDict (copy_keys errors obj))
  else Ok (VDict obj).

(** ** [ModelConceptsQuery.post] and [ModelRelationsQuery.post] *)

Definition concept_names (concept_model : ConceptModel) : list string :=
  sorted (map fst (by_name concept_model)).

Definition relation_names (concept_model : ConceptModel) : list string :=
  sorted (map fst (relations_by_name concept_model)).

Definition ModelConceptsQuery_post : outcome pyval :=
  try_except
    (concept_model <- ConceptModel_new "biolink-model" ;;
     Ok (VList (map VStr (concept_names concept_model))))
    (fun e => Ok (VDict (handle_exception e false))).

Definition ModelRelationsQuery_post : outcome pyval :=
  try_except
    (concept_model <- ConceptModel_new "biolink-model" ;;
     Ok (VList (map VStr (relation_names concept_model))))
    (fun e => Ok (VDict (handle_exception e false))).

End Handlers.

Arguments by_name {Concept Relation} c.
Arguments relations_by_name {Concept Relation} c.
Arguments Build_ConceptModel {Concept Relation} by_name relations_by_name.
Arguments concept_names {Concept Relation} concept_model.
Arguments relation_names {Concept Relation} concept_model.

(** A sample [repr] for concrete runs. *)
Definition repr_by_type (v : pyval) : string := "<" ++ type_name v ++ ">".

(** The exception instances and strings inside a value, in the order the
    handler meets them: lists are opened at any depth, anything else is
    passed over. *)
Fixpoint error_leaves (e : pyval) : list pyval :=
  match e with
  | VList l => flat_map error_leaves l
  | VException _ _ | VTranQLException _ _ _ | VStr _ => [e]
  | _ => []
  end.

(** ** [handle_exception] on a bounded call stack *)

Section HandlerStack.

Variable py_repr : pyval -> string.

(** The method calls itself for every element of a list and once more for a
    string, and Python bounds the depth of its call stack
    ([sys.getrecursionlimit()], 1000 by default): a call that finds no
    frame left raises [RecursionError].  [frames] is the number of nested
    calls of the method that the stack still admits.  Here the [str] branch
    is the call on [Exception(e)] that the source writes. *)
Fixpoint handle_exception_within (frames : nat) (e : pyval) (warning : bool)
  : outcome pydict :=
  match frames with
  | O => Raise (VException "RecursionError" "maximum recursion depth exceeded")
  | S frames' =>
      errors <-
        match e with
        | VList l =>
            (fix extend (l : list pyval) : outcome (list pyval) :=
               match l with
               | [] => Ok []
               | exception :: rest =>
                   inner <- handle_exception_within frames' exception false ;;
                   more <- extend rest ;;
                   Ok (errors_of inner ++ more)
               end) l
        | VTranQLException _ m details =>
            Ok [error_entry m (if py_truthy details then py_str py_repr details else "")]
        | VException _ m => Ok [error_entry m ""]
        | VStr s =>
            inner <- handle_exception_within frames' (VException "Exception" s) false ;;
            Ok (errors_of inner)
        | _ => Ok []
        end ;;
      Ok [("errors", VList errors);
          ("status", VStr (if warning then "Warning" else "Error"))]
  end.

End HandlerStack.

(** The number of nested calls of the method that handling a value takes:
    one for the value, one more for a string, and for a list one more than
    the deepest of its elements. *)
Fixpoint call_depth (e : pyval) : nat :=
  match e with
  | VList l => S (fold_right (fun x d => Nat.max (call_depth x) d) 0 l)
  | VStr _ => 2
  | _ => 1
  end.

(** The empty list wrapped in [depth] lists. *)
Fixpoint nested_list (depth : nat) : pyval :=
  match depth with
  | O => VList []
  | S d => VList [nested_list d]
  end.

(** ** [AnnotateGraph.post] *)

(** [v[k]] for a string [k]: a dictionary looks the key up, nothing else
    takes a string index. *)
Definition py_subscript (v : pyval) (k : string) : outcome pyval :=
  match v with
  | VDict d => py_getitem k d
  | VList _ =>
      Raise (VException "TypeError" "list indices must be integers or slices, not str")
  | VTuple _ =>
      Raise (VException "TypeError" "tuple indices must be integers or slices, not str")
  | VStr _ => Raise (VException "TypeError" "string indices must be integers")
  | _ => Raise (VException "TypeError"
                  ("'" ++ type_name v ++ "' object is not subscriptable"))
  end.

(** The items of [for x in v]. *)
Definition py_for_items (v : pyval) : outcome (list pyval) :=
  match v with
  | VStr s => Ok (map (fun c => VStr (String c EmptyString)) (list_ascii_of_string s))
  | VList l => Ok l
  | VTuple l => Ok l
  | VDict d => Ok (map VStr (Dict.keys d))
  | _ => Raise (VException "TypeError"
                  ("'" ++ type_name v ++ "' object is not iterable"))
  end.

(** The double-quote character, as a string. *)
Definition dquote : string := String (ascii_of_nat 34) EmptyString.

(** [left + right] for a string [right]. *)
Definition py_add_str (left : pyval) (right : string) : outcome string :=
  match left with
  | VStr s => Ok (s ++ right)%string
  | VList _ =>
      Raise (VException "TypeError" ("can only concatenate list (not " ++ dquote ++ "str" ++ dquote
               ++ ") to list"))
  | VTuple _ =>
      Raise (VException "TypeError" ("can only concatenate tuple (not " ++ dquote ++ "str" ++ dquote
               ++ ") to tuple"))
  | _ => Raise (VException "TypeError"
                  ("unsupported operand type(s) for +: '" ++ type_name left
                   ++ "' and 'str'"))
  end.

(** The first object inside a value that cannot be hashed, if any: lists
    and dictionaries, also inside tuples. *)
Fixpoint unhashable (v : pyval) : option pyval :=
  match v with
  | VList _ | VDict _ => Some v
  | VTuple l =>
      (fix first (l : list pyval) : option pyval :=
         match l with
         | [] => None
         | x :: r =>
             match unhashable x with
             | Some u => Some u
             | None => first r
             end
         end) l
  | _ => None
  end.

(** [k in d] for a dictionary with string keys. *)
Definition has_key (k : string) (d : pydict) : bool :=
  match Dict.get k d with
  | Some _ => true
  | None => false
  end.

Section AnnotateResource.

(** [item in container] and [container[key] = value] for a container that
    is no dictionary (or a key that is no string): the resource is written
    for a message object, and what Python does on other containers is left
    to these. *)
Variable py_contains_other : pyval -> pyval -> outcome bool.
Variable py_setitem_other : pyval -> pyval -> pyval -> outcome pyval.

(** [TranQL().context.mem], or what the constructor raises. *)
Variable fresh_mem : outcome pydict.

(** [requests.post(url=url, json=messageObject, headers=...).json()] *)
Variable requests_post_json : string -> pyval -> outcome pyval.

(** [item in container]: a dictionary hashes the item and looks it up among
    its keys, which are strings. *)
Definition py_contains (container item : pyval) : outcome bool :=
  match container with
  | VDict d =>
      match item with
      | VStr k => Ok (has_key k d)
      | _ =>
          match unhashable item with
          | Some u =>
              Raise (VException "TypeError"
                       ("unhashable type: '" ++ type_name u ++ "'"))
          | None => Ok false
          end
      end
  | _ => py_contains_other container item
  end.

(** [container[key] = value] *)
Definition py_setitem (container key value : pyval) : outcome pyval :=
  match container, key with
  | VDict d, VStr k => Ok (VDict (Dict.set k value d))
  | _, _ => py_setitem_other container key value
  end.

(** The body of the loop: the right-hand side [result['result_graph']] is
    read only when the type is in the message. *)
Definition annotate_step (messageObject result : pyval) : outcome pyval :=
  type <- py_subscript result "result_type" ;;
  present <- py_contains messageObject type ;;
  if present then
    graph <- py_subscript result "result_graph" ;;
    py_setitem messageObject type graph
  else Ok messageObject.

(** [for result in data['results']: ...] on the one message object. *)
Fixpoint annotate_loop (results : list pyval) (messageObject : pyval)
  : outcome pyval :=
  match results with
  | [] => Ok messageObject
  | result :: rest =>
      messageObject' <- annotate_step messageObject result ;;
      annotate_loop rest messageObject'
  end.

Definition AnnotateGraph_post (request_json : pydict) : outcome pyval :=
  mem <- fresh_mem ;;
  messageObject <- py_getitem "message" request_json ;;
  let backplane :=
    match Dict.get "backplane" mem with
    | Some v => v
    | None => VNone
    end in
  url <- py_add_str backplane "/graph/gnbr/decorate" ;;
  data <- requests_post_json url messageObject ;;
  results <- py_subscript data "results" ;;
  items <- py_for_items results ;;
  annotate_loop items messageObject.

End AnnotateResource.

(** ** The message merger behind [MergeMessages.post] *)

Module MessageMerger.

(** Modelled from the spec: [SelectStatement.merge_results] of
    [tranql.tranql_ast] is not among the sources.  A node of a GraphMessage
    (data model): id, type, optional name, extra attributes.  Type and name
    are kept as sets, since merging unions them. *)
Record Node : Type := {
  node_id : string;
  node_type : list string;
  node_name : list string;
  node_attributes : pydict
}.

(** Modelled from the spec: an edge of a GraphMessage, which
    [tranql.tranql_ast] would merge: id, source node id, target node id,
    type, attributes. *)
Record Edge : Type := {
  edge_id : string;
  source_id : string;
  target_id : string;
  edge_type : string;
  edge_attributes : pydict
}.

(** Modelled from the spec: the GraphMessage that the absent
    [merge_results] takes and returns, nodes and edges in wire order. *)
Record GraphMessage : Type := {
  nodes : list Node;
  edges : list Edge
}.

(** Modelled from the spec: the interpreter options the absent merger
    recognises.  The two resolver options act before the merge through
    external collaborators; the merge itself consults
    [name_based_merging] only. *)
Record Options : Type := {
  asynchronous : bool;
  name_based_merging : bool;
  resolve_names : bool;
  dynamic_id_resolution : bool
}.

Definition default_options : Options :=
  {| asynchronous := false; name_based_merging := false;
     resolve_names := false; dynamic_id_resolution := false |}.

Definition empty_message : GraphMessage := {| nodes := []; edges := [] |}.

(** Modelled from the spec: the data-model invariant of a GraphMessage
    (node ids unique, edge ids unique within a message). *)
Definition well_formed (m : GraphMessage) : Prop :=
  NoDup (map node_id (nodes m)) /\ NoDup (map edge_id (edges m)).

Definition lower_ascii (c : ascii) : ascii :=
  let n := nat_of_ascii c in
  if andb (Nat.leb 65 n) (Nat.leb n 90) then ascii_of_nat (n + 32) else c.

Fixpoint lower (s : string) : string :=
  match s with
  | EmptyString => EmptyString
  | String c r => String (lower_ascii c) (lower r)
  end.

Definition mem_string (x : string) (l : list string) : bool :=
  existsb (String.eqb x) l.

(** Union of two sets of strings, first-seen order. *)
Definition union_strings (l1 l2 : list string) : list string :=
  fold_left (fun acc x => if mem_string x acc then acc else acc ++ [x]) l2 l1.

(** Two names match when they are equal up to case. *)
Definition names_match (m n : Node) : bool :=
  existsb (fun a => existsb (fun b => String.eqb (lower a) (lower b)) (node_name n))
          (node_name m).

(** Modelled from the spec: the node deduplication key of the absent
    merger, [(id)] by default, or [(id) OR (name, case-insensitive)] under
    [name_based_merging]. *)
Definition same_entity (o : Options) (m n : Node) : bool :=
  String.eqb (node_id m) (node_id n) || (name_based_merging o && names_match m n).

(** Modelled from the spec: the merged node of the absent merger keeps the
    first-seen id, unions type and name, and takes the later node's value
    for an attribute both carry. *)
Definition merge_node (m n : Node) : Node :=
  {| node_id := node_id m;
     node_type := union_strings (node_type m) (node_type n);
     node_name := union_strings (node_name m) (node_name n);
     node_attributes := Dict.update (node_attributes m) (node_attributes n) |}.

(** Modelled from the spec: putting one node into the merged nodes of the
    absent merger.  Two nodes merge into one if either key matches, so every
    node already there that matches the incoming one goes into the merged
    node: it stands where the first of them stood and keeps that first-seen
    id, and the later ones and the incoming node are folded into it in
    order.  The second component says which id each of these ids goes by
    from now on. *)
Fixpoint upsert_node (o : Options) (n : Node) (acc : list Node)
  : list Node * list (string * string) :=
  match acc with
  | [] => ([n], [(node_id n, node_id n)])
  | m :: rest =>
      if same_entity o m n then
        let same := filter (fun x => same_entity o x n) rest in
        (fold_left merge_node (same ++ [n]) m
           :: filter (fun x => negb (same_entity o x n)) rest,
         map (fun x => (node_id x, node_id m)) (same ++ [n]))
      else let (rest', remap) := upsert_node o n rest in (m :: rest', remap)
  end.

(** The nodes of one message, in order, with the renamings they caused. *)
Fixpoint add_nodes (o : Options) (ns : list Node) (acc : list Node)
  : list Node * list (string * string) :=
  match ns with
  | [] => (acc, [])
  | n :: r =>
      let (acc1, remap1) := upsert_node o n acc in
      let (acc2, remap2) := add_nodes o r acc1 in
      (acc2, remap1 ++ remap2)
  end.

(** An id after the renamings, applied in the order they happened. *)
Definition remap_id (remap : list (string * string)) (i : string) : string :=
  fold_left (fun i renaming =>
               if String.eqb i (fst renaming) then snd renaming else i) remap i.

Definition remap_edge (remap : list (string * string)) (e : Edge) : Edge :=
  {| edge_id := edge_id e;
     source_id := remap_id remap (source_id e);
     target_id := remap_id remap (target_id e);
     edge_type := edge_type e;
     edge_attributes := edge_attributes e |}.

(** Modelled from the spec: the edge deduplication key of the absent
    merger, (source id, target id, predicate type) after remapping. *)
Definition edge_key (e : Edge) : string * string * string :=
  (source_id e, target_id e, edge_type e).

Definition key_eqb (k1 k2 : string * string * string) : bool :=
  let '(s1, t1, p1) := k1 in
  let '(s2, t2, p2) := k2 in
  String.eqb s1 s2 && String.eqb t1 t2 && String.eqb p1 p2.

(** Duplicate edges union their attributes, the later value winning. *)
Definition merge_edge (m e : Edge) : Edge :=
  {| edge_id := edge_id m;
     source_id := source_id m;
     target_id := target_id m;
     edge_type := edge_type m;
     edge_attributes := Dict.update (edge_attributes m) (edge_attributes e) |}.

Fixpoint upsert_edge (e : Edge) (acc : list Edge) : list Edge :=
  match acc with
  | [] => [e]
  | m :: rest =>
      if key_eqb (edge_key m) (edge_key e) then merge_edge m e :: rest
      else m :: upsert_edge e rest
  end.

Fixpoint add_edges (es : list Edge) (acc : list Edge) : list Edge :=
  match es with
  | [] => acc
  | e :: r => add_edges r (upsert_edge e acc)
  end.

(** Modelled from the spec: one more message merged into the running
    result of the absent merger.  The edges of both are keyed on the ids
    after remapping and deduplicated in order. *)
Definition merge_into (o : Options) (acc msg : GraphMessage) : GraphMessage :=
  let (ns, remap) := add_nodes o (nodes msg) (nodes acc) in
  {| nodes := ns;
     edges := add_edges (map (remap_edge remap) (edges acc ++ edges msg)) [] |}.

(** Modelled from the spec: [merge(messages, options)], the contract of the
    absent [SelectStatement.merge_results]: the messages are folded in input
    order into one message. *)
Definition merge (o : Options) (messages : list GraphMessage) : GraphMessage :=
  fold_left (merge_into o) messages empty_message.

Definition same_strings (l1 l2 : list string) : Prop :=
  forall x, In x l1 <-> In x l2.

(** Two nodes that differ at most in their attributes. *)
Definition same_node (m n : Node) : Prop :=
  node_id m = node_id n /\
  same_strings (node_type m) (node_type n) /\
  same_strings (node_name m) (node_name n).

(** Every node of [m1] is a node of [m2] up to attributes, and every edge
    key of [m1] is an edge key of [m2]. *)
Definition covers (m1 m2 : GraphMessage) : Prop :=
  (forall m, In m (nodes m1) -> exists n, In n (nodes m2) /\ same_node m n) /\
  (forall k, In k (map edge_key (edges m1)) -> In k (map edge_key (edges m2))).

(** Equality of messages as node and edge sets, attribute values aside. *)
Definition same_sets (m1 m2 : GraphMessage) : Prop :=
  covers m1 m2 /\ covers m2 m1.

(** The merged node that goes by an id. *)
Definition find_node (i : string) (l : list Node) : option Node :=
  find (fun m => String.eqb (node_id m) i) l.

(** No two nodes of the list share the deduplication key. *)
Definition separate (o : Options) (l : list Node) : Prop :=
  ForallOrdPairs (fun m n => same_entity o m n = false) l.

(** A message in which no two nodes share the deduplication key and no two
    edges share their key. *)
Definition clean (o : Options) (m : GraphMessage) : Prop :=
  separate o (nodes m) /\ NoDup (map edge_key (edges m)).

(** A message whose node ids and whose edge keys are pairwise distinct. *)
Definition distinct (m : GraphMessage) : Prop :=
  NoDup (map node_id (nodes m)) /\ NoDup (map edge_key (edges m)).

(** The values of a set-valued field (type or name) of the node that goes
    by [i], if there is one. *)
Definition field_at (field : Node -> list string) (i : string) (l : list Node)
  (x : string) : Prop :=
  match find_node i l with
  | Some m => In x (field m)
  | None => False
  end.

(** The values of the field that the nodes of id [i] among [ns] carry. *)
Definition field_from (field : Node -> list string) (i : string) (ns : list Node)
  (x : string) : Prop :=
  exists n, In n ns /\ node_id n = i /\ In x (field n).

End MessageMerger.

(** ** Concrete runs *)

Module Sample.

Import MessageMerger.

(** An interpreter that is just its options. *)
Definition TranQL (options : pyval) : outcome pyval := Ok options.

(** The context after a run that answered with one node and met two
    request errors on the way. *)
Definition mem : pydict :=
  [("backplane", VStr "http://localhost:8099");
   ("result",
    VDict [("knowledge_graph",
            VDict [("nodes", VList [VDict [("id", VStr "MONDO:0005405")]]);
                   ("edges", VList [])])]);
   ("requestErrors",
    VList [VTranQLException "ServiceInvocationError" "Error invoking service"
             (VStr "HTTP 503");
           VException "ValueError" "malformed response"])].

(** The context of a run that failed after one request error. *)
Definition failed_mem : pydict :=
  [("backplane", VStr "http://localhost:8099");
   ("requestErrors", VList [VStr "robokop timed out"])].

(** [execute]: the empty query raises, any other query returns [mem]. *)
Definition execute (tranql : pyval) (query : pyval) : execution :=
  match query with
  | VStr EmptyString =>
      Raised (VTranQLException "TranQLException" "empty query" VNone) failed_mem
  | _ => Returned mem
  end.

Definition request : pydict :=
  [("query", VStr "select chemical_substance->gene from '/graph/gamma/quick'")].

Definition schema : schema_build :=
  {| schema_message :=
       VDict [("knowledge_graph", VDict [("nodes", VList []); ("edges", VList [])])];
     loadErrors := VList [VException "ConnectionError" "rtx unreachable"] |}.

Definition ConceptModel_new (name : string) : outcome (ConceptModel unit unit) :=
  Ok {| by_name := [("gene", tt); ("disease", tt); ("chemical_substance", tt)];
        relations_by_name := [("treats", tt); ("affects", tt); ("targets", tt)] |}.

Definition name_based_options : Options :=
  {| asynchronous := false; name_based_merging := true;
     resolve_names := false; dynamic_id_resolution := false |}.

Definition plain_node (id type name : string) : Node :=
  {| node_id := id; node_type := [type]; node_name := [name];
     node_attributes := [] |}.

Definition plain_edge (id source target type : string) : Edge :=
  {| edge_id := id; source_id := source; target_id := target;
     edge_type := type; edge_attributes := [] |}.

(** Two messages naming the same drug under different ids. *)
Definition aspirin_chebi : GraphMessage :=
  {| nodes := [plain_node "CHEBI:15365" "chemical_substance" "Aspirin"];
     edges := [] |}.

Definition aspirin_chembl : GraphMessage :=
  {| nodes := [plain_node "CHEMBL:25" "chemical_substance" "aspirin"];
     edges := [] |}.

(** One message with two edges, of different ids, between the same nodes
    and of the same type. *)
Definition parallel_edges : GraphMessage :=
  {| nodes := [plain_node "n0" "chemical_substance" "imatinib";
               plain_node "n1" "gene" "ABL1"];
     edges := [plain_edge "e0" "n0" "n1" "targets";
               plain_edge "e1" "n0" "n1" "targets"] |}.

(** The two messages of the resource's documentation. *)
Definition targets_message : GraphMessage :=
  {| nodes := [plain_node "n0" "chemical_substance" "imatinib";
               plain_node "n1" "gene" "ABL1"];
     edges := [plain_edge "e0" "n0" "n1" "targets"] |}.

Definition interacts_message : GraphMessage :=
  {| nodes := [plain_node "n0" "chemical_substance" "imatinib";
               plain_node "n1" "gene" "ABL1"];
     edges := [plain_edge "e0" "n0" "n1" "interacts_with"] |}.

(** A drug listed under a synonym next to its common name, and a message
    that gives the first node the common name as well. *)
Definition synonym_message : GraphMessage :=
  {| nodes := [plain_node "n1" "chemical_substance" "ASA";
               plain_node "n2" "chemical_substance" "aspirin"];
     edges := [] |}.

Definition renaming_message : GraphMessage :=
  {| nodes := [plain_node "n1" "chemical_substance" "Aspirin"];
     edges := [] |}.

Definition disease_message : GraphMessage :=
  {| nodes := [plain_node "n2" "disease" "asthma"];
     edges := [plain_edge "e2" "n0" "n2" "treats"] |}.

End Sample.


(** ** More concrete runs *)

Module SampleRuns.

(** A context without request errors. *)
Definition clean_mem : pydict :=
  [("backplane", VStr "http://localhost:8099");
   ("result",
    VDict [("knowledge_graph",
            VDict [("nodes", VList [VDict [("id", VStr "CHEBI:15365")]]);
                   ("edges", VList [])])])].

Definition execute_clean (tranql query : pyval) : execution := Returned clean_mem.

(** A context whose result is a list, next to one request error. *)
Definition odd_mem : pydict :=
  [("result", VList []); ("requestErrors", VList [VStr "icees timed out"])].

Definition execute_odd (tranql query : pyval) : execution := Returned odd_mem.

(** A taxonomy whose file is missing, and one filled in another order than
    [Sample.ConceptModel_new]. *)
Definition ConceptModel_missing (name : string) : outcome (ConceptModel unit unit) :=
  Raise (VException "FileNotFoundError" "biolink-model.yaml").

Definition ConceptModel_reordered (name : string) : outcome (ConceptModel unit unit) :=
  Ok {| by_name := [("chemical_substance", tt); ("gene", tt); ("disease", tt)];
        relations_by_name := [("targets", tt); ("treats", tt); ("affects", tt)] |}.

(** Containers other than a message object are not exercised in the runs
    below. *)
Definition contains_other (container item : pyval) : outcome bool :=
  Raise (VException "TypeError"
           ("argument of type '" ++ type_name container ++ "' is not iterable")).

Definition setitem_other (container key value : pyval) : outcome pyval :=
  Raise (VException "TypeError"
           ("'" ++ type_name container ++ "' object does not support item assignment")).

Definition fresh_mem : outcome pydict :=
  Ok [("backplane", VStr "http://localhost:8099")].

Definition message : pydict :=
  [("question_graph", VDict [("nodes", VList []); ("edges", VList [])]);
   ("knowledge_graph", VDict [("nodes", VList []); ("edges", VList [])]);
   ("knowledge_map", VList [])].

Definition decorated : pyval :=
  VDict [("nodes", VList [VDict [("id", VStr "n0"); ("pmids", VInt 3)]]);
         ("edges", VList [])].

(** The annotator answers with a first and a better knowledge graph, and
    with a result of a type the message does not have. *)
Definition annotator_results : list pyval :=
  [VDict [("result_type", VStr "knowledge_graph"); ("result_graph", VDict [])];
   VDict [("result_type", VStr "knowledge_graph"); ("result_graph", decorated)];
   VDict [("result_type", VStr "answers")]].

Definition requests_post_json (url : string) (json : pyval) : outcome pyval :=
  if String.eqb url "http://localhost:8099/graph/gnbr/decorate"
  then Ok (VDict [("results", VList annotator_results)])
  else Raise (VException "ConnectionError" url).

(** An annotator that only has results of types the message lacks. *)
Definition requests_post_json_other (url : string) (json : pyval) : outcome pyval :=
  Ok (VDict [("results",
              VList [VDict [("result_type", VStr "answers")];
                     VDict [("result_type", VInt 7); ("result_graph", VNone)]])]).

End SampleRuns.

(** * Properties *)

(** ** Dictionaries *)

Lemma get_set_same k v d : Dict.get k (Dict.set k v d) = Some v.
Proof.
  induction d as [|[k' v'] r IH]; simpl.
  - now rewrite String.eqb_refl.
  - destruct (String.eqb k k') eqn:E; simpl; rewrite E; auto.
Qed.

Lemma get_set_other k k' v d :
  k <> k' -> Dict.get k (Dict.set k' v d) = Dict.get k d.
Proof.
  intros Hne. induction d as [|[k0 v0] r IH]; simpl.
  - destruct (String.eqb k k') eqn:E; auto.
    apply String.eqb_eq in E. contradiction.
  - destruct (String.eqb k' k0) eqn:E; simpl.
    + apply String.eqb_eq in E. subst k0.
      destruct (String.eqb k k') eqn:E'; auto.
      apply String.eqb_eq in E'. contradiction.
    + now rewrite IH.
Qed.

(** Updating with a handler result: [errors] and [status] are overwritten,
    every other key keeps its value. *)
Lemma update_two_keys (d : pydict) (errs st : pyval) :
  let d' := Dict.update d [("errors", errs); ("status", st)] in
  Dict.get "errors" d' = Some errs /\
  Dict.get "status" d' = Some st /\
  (forall k, k <> "errors" -> k <> "status" -> Dict.get k d' = Dict.get k d).
Proof.
  cbv zeta. unfold Dict.update. simpl. repeat split.
  - rewrite get_set_other by discriminate. apply get_set_same.
  - apply get_set_same.
  - intros k H1 H2. now rewrite !get_set_other.
Qed.

(** ** The exception handler *)

Section HandlerProperties.

Variable py_repr : pyval -> string.

Local Abbreviation handle := (handle_exception py_repr).
Local Abbreviation rendered := (rendered py_repr).
Local Abbreviation render := (render py_repr).

Lemma handle_shape e w :
  handle e w = [("errors", VList (rendered e));
                ("status", VStr (if w then "Warning" else "Error"))].
Proof. destruct e; reflexivity. Qed.

Lemma errors_of_handle e w : errors_of (handle e w) = rendered e.
Proof. now rewrite handle_shape. Qed.

Lemma rendered_list es : rendered (VList es) = flat_map rendered es.
Proof. reflexivity. Qed.

Lemma rendered_error e : is_error e = true -> rendered e = [render e].
Proof. destruct e; simpl; try discriminate; reflexivity. Qed.

Lemma rendered_errors es :
  forallb is_error es = true -> flat_map rendered es = map render es.
Proof.
  induction es as [|e r IH]; simpl; auto.
  intros H. apply andb_prop in H as [He Hr].
  now rewrite (rendered_error e He), IH.
Qed.

Lemma rendered_entries e : Forall is_entry (rendered e).
Proof.
  induction e using pyval_nested_ind; try (constructor; fail).
  - repeat constructor. now exists s, "".
  - rewrite rendered_list. induction H as [|x r Hx Hr IH]; simpl.
    + constructor.
    + apply Forall_app. split; assumption.
  - repeat constructor. now exists m, "".
  - repeat constructor. eexists m, _. reflexivity.
Qed.

(** Whenever the method returns, it returns a dictionary with an [errors]
    list and a [status] that is [Warning] when the flag is set and [Error]
    otherwise. *)
Theorem handle_exception_returns_errors_and_status (e : pyval) (warning : bool) :
  exists errors,
    handle_exception py_repr e warning =
      [("errors", VList errors);
       ("status", VStr (if warning then "Warning" else "Error"))] /\
    Dict.get "errors" (handle_exception py_repr e warning) = Some (VList errors) /\
    Dict.get "status" (handle_exception py_repr e warning) =
      Some (VStr (if warning then "Warning" else "Error")).
Proof.
  exists (rendered e). rewrite handle_shape. repeat split.
Qed.

(** C9: handling a list gives the in-order concatenation of the errors of
    handling each element on its own (with either flag), and the empty list
    gives no errors under the status [Error]. *)
Theorem handle_exception_list_concat (es : list pyval) (warning each : bool) :
  errors_of (handle_exception py_repr (VList es) warning) =
    concat (map (fun e => errors_of (handle_exception py_repr e each)) es) /\
  handle_exception py_repr (VList []) false =
    [("errors", VList []); ("status", VStr "Error")].
Proof.
  split; [|reflexivity].
  rewrite errors_of_handle, rendered_list, flat_map_concat_map.
  f_equal. apply map_ext. intros e. now rewrite errors_of_handle.
Qed.

(** The [str] branch, which the source writes as a call of the handler on
    [Exception(e)], agrees with that call. *)
Lemma handle_exception_str_as_exception (s : string) (warning : bool) :
  errors_of (handle (VStr s) warning) =
    errors_of (handle (VException "Exception" s) false).
Proof. reflexivity. Qed.

(** C3, as the code has it: every error the handler reports is a record of
    exactly the two string fields [message] and [details] (no [kind]); an
    exception instance or a string gives one such record with its text as
    the message, a list gives the records of its elements in order, and the
    handler returns them in a list instead of raising. *)
Theorem handle_exception_uniform_entries (e : pyval) (warning : bool) :
  Forall (fun r => exists message details,
            r = VDict [("message", VStr message); ("details", VStr details)])
         (errors_of (handle_exception py_repr e warning)) /\
  (forall c m, errors_of (handle_exception py_repr (VException c m) warning) =
                 [VDict [("message", VStr m); ("details", VStr "")]]) /\
  (forall s, errors_of (handle_exception py_repr (VStr s) warning) =
               [VDict [("message", VStr s); ("details", VStr "")]]) /\
  (forall c m d, errors_of (handle_exception py_repr (VTranQLException c m d) warning) =
                   [VDict [("message", VStr m);
                           ("details", VStr (if py_truthy d then py_str py_repr d else ""))]]) /\
  (forall es, errors_of (handle_exception py_repr (VList es) warning) =
                flat_map (fun x => errors_of (handle_exception py_repr x warning)) es).
Proof.
  repeat split; try (intros; now rewrite errors_of_handle).
  - rewrite errors_of_handle. apply rendered_entries.
  - intros es. rewrite errors_of_handle, rendered_list.
    apply flat_map_ext. intros x. now rewrite errors_of_handle.
Qed.

(** ** JSON serialisation of responses *)

Lemma json_list_ok (l : list pyval) :
  Forall (fun v => json_offender v = None) l -> json_offender (VList l) = None.
Proof.
  induction 1 as [|x r Hx Hr IH]; simpl; auto.
  rewrite Hx. exact IH.
Qed.

Lemma json_dict_ok (d : pydict) :
  Forall (fun kv => json_offender (snd kv) = None) d <-> json_offender (VDict d) = None.
Proof.
  split.
  - induction 1 as [|x r Hx Hr IH]; simpl; auto.
    rewrite Hx. exact IH.
  - induction d as [|x r IH]; intros H; constructor; simpl in H;
      destruct (json_offender (snd x)); try discriminate; auto.
Qed.

Lemma json_set_ok k v (d : pydict) :
  json_offender v = None ->
  Forall (fun kv => json_offender (snd kv) = None) d ->
  Forall (fun kv => json_offender (snd kv) = None) (Dict.set k v d).
Proof.
  intros Hv. induction 1 as [|[k' v'] r Hx Hr IH]; simpl.
  - repeat constructor. exact Hv.
  - destruct (String.eqb k k'); constructor; auto.
Qed.

Lemma json_entries_ok (l : list pyval) :
  Forall is_entry l -> json_offender (VList l) = None.
Proof.
  intros H. apply json_list_ok. eapply Forall_impl; [|exact H].
  intros r (m & d & ->). reflexivity.
Qed.

(** What the handler returns can always be dumped. *)
Lemma json_handle_ok e w : json_offender (VDict (handle e w)) = None.
Proof.
  rewrite handle_shape. apply json_dict_ok.
  apply Forall_cons; [|apply Forall_cons; [|apply Forall_nil]]; simpl snd.
  - apply json_entries_ok, rendered_entries.
  - now destruct w.
Qed.

Lemma json_update_handle_ok (partial : pydict) e w :
  json_offender (VDict partial) = None ->
  json_offender (VDict (Dict.update partial (handle e w))) = None.
Proof.
  intros Hp. apply json_dict_ok. apply json_dict_ok in Hp.
  rewrite handle_shape. unfold Dict.update. simpl.
  apply json_set_ok; [now destruct w|].
  apply json_set_ok; [|exact Hp].
  apply json_entries_ok, rendered_entries.
Qed.

Lemma json_dump_ok v : json_offender v = None -> json_dump v = Ok tt.
Proof. unfold json_dump. now intros ->. Qed.

Lemma serializable_offender v : json_serializable v = true -> json_offender v = None.
Proof. unfold json_serializable. now destruct (json_offender v). Qed.

Lemma length_positive {A} (l : list A) : l <> [] -> (Z.of_nat (length l) >? 0)%Z = true.
Proof. destruct l; [congruence|]. intros _. simpl length. apply Z.gtb_lt. lia. Qed.

(** ** The query resource *)

Variable Interpreter : Type.
Variable TranQL : pyval -> outcome Interpreter.
Variable execute : Interpreter -> pyval -> execution.

(** C1: when [execute] returns and the context holds a non-empty
    [requestErrors] list, the response is the partial result (every key of
    it other than [errors] and [status] unchanged) together with an
    [errors] list that renders the request errors in order, one entry for
    each exception or string, and the [status] [Warning]. *)
Theorem query_partial_result_with_warning
  (request_json : pydict) (tranql : Interpreter) (mem partial : pydict)
  (errs : list pyval) :
  TranQL (VDict [("dynamic_id_resolution",
                  Dict.get_default "dynamicIdResolution" (VBool false) request_json)]) =
    Ok tranql ->
  execute tranql (Dict.get_default "query" (VStr "") request_json) = Returned mem ->
  Dict.get_default "result" (VDict []) mem = VDict partial ->
  json_serializable (VDict partial) = true ->
  Dict.get "requestErrors" mem = Some (VList errs) ->
  errs <> [] ->
  exists response,
    TranQLQuery_post py_repr Interpreter TranQL execute request_json =
      Ok (VDict response) /\
    (forall k, k <> "errors" -> k <> "status" ->
               Dict.get k response = Dict.get k partial) /\
    Dict.get "errors" response = Some (VList (flat_map rendered errs)) /\
    (forallb is_error errs = true ->
     Dict.get "errors" response = Some (VList (map render errs)) /\
     length (map render errs) = length errs) /\
    Dict.get "status" response = Some (VStr "Warning").
Proof.
  intros HT Hrun Hres Hjson Herrs Hne.
  exists (Dict.update partial (handle (VList errs) true)).
  unfold TranQLQuery_post. rewrite HT. cbn [bind]. rewrite Hrun.
  unfold query_try_body. rewrite Hres.
  unfold Dict.get_default at 1, py_getitem. rewrite Herrs. cbn [py_len bind].
  rewrite (length_positive errs Hne). cbn [bind py_update try_except].
  rewrite json_dump_ok
    by (apply json_update_handle_ok, serializable_offender, Hjson).
  cbn [bind]. rewrite handle_shape.
  destruct (update_two_keys partial (VList (rendered (VList errs))) (VStr "Warning"))
    as (He & Hs & Hk).
  rewrite rendered_list in *.
  split; [reflexivity|]. split; [exact Hk|]. split; [exact He|].
  split; [|exact Hs].
  intros Hall. split; [|apply length_map].
  now rewrite <- rendered_errors.
Qed.

Lemma render_message e :
  is_exception e = true ->
  exists details, render e = error_entry (py_str py_repr e) details.
Proof. destruct e; try discriminate; intros _; eexists; reflexivity. Qed.

(** C2: when [execute] raises, the response has the [status] [Error] and an
    [errors] list that starts with the record of the raised exception (its
    text as the message) and goes on with the request errors gathered in
    the context; [errors] and [status] are its only keys, so it carries no
    result graph. *)
Theorem query_failure_is_error_response
  (request_json : pydict) (tranql : Interpreter) (e : pyval) (mem : pydict)
  (errs : list pyval) :
  TranQL (VDict [("dynamic_id_resolution",
                  Dict.get_default "dynamicIdResolution" (VBool false) request_json)]) =
    Ok tranql ->
  execute tranql (Dict.get_default "query" (VStr "") request_json) = Raised e mem ->
  is_exception e = true ->
  Dict.get_default "requestErrors" (VList []) mem = VList errs ->
  exists details,
    TranQLQuery_post py_repr Interpreter TranQL execute request_json =
      Ok (VDict [("errors", VList (error_entry (py_str py_repr e) details
                                     :: flat_map rendered errs));
                 ("status", VStr "Error")]) /\
    (forallb is_error errs = true -> flat_map rendered errs = map render errs) /\
    (forall k, k <> "errors" -> k <> "status" ->
       Dict.get k [("errors", VList (error_entry (py_str py_repr e) details
                                       :: flat_map rendered errs));
                   ("status", VStr "Error")] = None).
Proof.
  intros HT Hrun Hexc Herrs.
  destruct (render_message e Hexc) as [details Hd]. exists details.
  split; [|split].
  - unfold TranQLQuery_post. rewrite HT. cbn [bind]. rewrite Hrun.
    cbn [query_try_body try_except]. rewrite Hexc. unfold query_except.
    cbn [context_mem]. rewrite Herrs. cbn [py_iter bind].
    rewrite json_dump_ok by apply json_handle_ok. cbn [bind].
    rewrite handle_shape, rendered_list. cbn [flat_map].
    rewrite rendered_error by (destruct e; try discriminate; reflexivity).
    now rewrite Hd.
  - apply rendered_errors.
  - intros k H1 H2. simpl.
    apply String.eqb_neq in H1, H2. now rewrite H1, H2.
Qed.

(** ** The schema resource *)

(** C4: whatever the build recorded in [loadErrors], the response holds the
    schema message under [schema]; without load errors that is the whole
    response, with load errors the rendered errors and the [status]
    [Warning] are added after it. *)
Theorem schema_response_keeps_schema (schema : schema_build) (errs : list pyval) :
  loadErrors schema = VList errs ->
  exists obj,
    SchemaGraph_get py_repr (Ok schema) = Ok (VDict obj) /\
    Dict.get "schema" obj = Some (schema_message schema) /\
    (errs = [] -> obj = [("schema", schema_message schema)]) /\
    (errs <> [] ->
       obj = [("schema", schema_message schema);
              ("errors", VList (flat_map rendered errs));
              ("status", VStr "Warning")]) /\
    (forallb is_error errs = true -> flat_map rendered errs = map render errs).
Proof.
  intros Hl. unfold SchemaGraph_get. cbn [bind]. rewrite Hl. cbn [py_len bind].
  destruct errs as [|e r].
  - eexists. split; [reflexivity|]. repeat split; try reflexivity; congruence.
  - rewrite length_positive by discriminate.
    eexists. split; [reflexivity|].
    rewrite handle_shape, rendered_list.
    repeat split; try reflexivity; try congruence.
    apply rendered_errors.
Qed.

End HandlerProperties.

(** ** Sorted name listings *)

Definition string_le (a b : string) : Prop := String.leb a b = true.

Lemma ascii_compare_refl c : Ascii.compare c c = Eq.
Proof. unfold Ascii.compare. apply N.compare_refl. Qed.

Lemma string_compare_trans a :
  forall b c, String.compare a b <> Gt -> String.compare b c <> Gt ->
              String.compare a c <> Gt.
Proof.
  induction a as [|x a IH]; intros [|y b] [|z c]; simpl; try congruence.
  destruct (Ascii.compare x y) eqn:Exy; try congruence;
    destruct (Ascii.compare y z) eqn:Eyz; try congruence.
  - apply Ascii.compare_eq_iff in Exy, Eyz. subst.
    rewrite ascii_compare_refl. apply IH.
  - apply Ascii.compare_eq_iff in Exy. subst. rewrite Eyz. congruence.
  - apply Ascii.compare_eq_iff in Eyz. subst. rewrite Exy. congruence.
  - unfold Ascii.compare in *. rewrite N.compare_lt_iff in Exy, Eyz.
    assert (H : (N_of_ascii x < N_of_ascii z)%N) by lia.
    apply N.compare_lt_iff in H. rewrite H. congruence.
Qed.

Lemma string_le_trans :
  Transitive (fun a b : string => is_true (StringOrder.leb a b)).
Proof.
  intros a b c. unfold StringOrder.leb, String.leb, is_true.
  pose proof (string_compare_trans a b c) as H.
  destruct (String.compare a b), (String.compare b c), (String.compare a c);
    try reflexivity; try discriminate; intros _ _; exfalso; apply H; congruence.
Qed.

Lemma sorted_ascending l : StronglySorted string_le (sorted l).
Proof. apply (StringSort.StronglySorted_sort l string_le_trans). Qed.

Lemma sorted_permutation l : Permutation (sorted l) l.
Proof. symmetry. apply StringSort.Permuted_sort. Qed.

(** An ascending arrangement of given strings is unique, so any correct
    [sorted] returns the same list. *)
Lemma ascending_unique l1 :
  forall l2, Permutation l1 l2 ->
             StronglySorted string_le l1 -> StronglySorted string_le l2 -> l1 = l2.
Proof.
  induction l1 as [|a l1 IH]; intros l2 Hp H1 H2.
  - apply Permutation_nil in Hp. now subst.
  - destruct l2 as [|b l2].
    + symmetry in Hp. apply Permutation_nil in Hp. discriminate.
    + apply StronglySorted_inv in H1 as [H1 Ha].
      apply StronglySorted_inv in H2 as [H2 Hb].
      assert (a = b) as ->.
      { assert (In a (b :: l2)) as [-> | Hin]
          by (eapply Permutation_in; [exact Hp|now left]); [reflexivity|].
        assert (In b (a :: l1)) as [->|Hin']
          by (eapply Permutation_in; [symmetry; exact Hp|now left]); [reflexivity|].
        rewrite Forall_forall in Ha, Hb.
        apply String.leb_antisym; [apply Ha, Hin'|apply Hb, Hin]. }
      f_equal. apply IH; auto. eapply Permutation_cons_inv; exact Hp.
Qed.

Section ListingProperties.

Variable py_repr : pyval -> string.
Variable Concept Relation : Type.
Variable ConceptModel_new : string -> outcome (ConceptModel Concept Relation).

(** C6: once the taxonomy is constructed, the concept listing returns the
    keys of its [by_name] table, each exactly as often as it is a key, as
    strings in ascending order. *)
Theorem concept_listing_sorted_keys (concept_model : ConceptModel Concept Relation) :
  ConceptModel_new "biolink-model" = Ok concept_model ->
  exists names,
    ModelConceptsQuery_post py_repr Concept Relation ConceptModel_new =
      Ok (VList (map VStr names)) /\
    Permutation names (map fst (by_name concept_model)) /\
    (forall k, In k names <-> In k (map fst (by_name concept_model))) /\
    StronglySorted string_le names.
Proof.
  intros Hnew. exists (concept_names concept_model).
  unfold ModelConceptsQuery_post. rewrite Hnew. cbn [bind try_except].
  split; [reflexivity|]. unfold concept_names.
  split; [apply sorted_permutation|]. split; [|apply sorted_ascending].
  intros k. split; apply Permutation_in;
    [|symmetry]; apply sorted_permutation.
Qed.

(** C7: once the taxonomy is constructed, the relation listing returns the
    keys of its [relations_by_name] table as strings in ascending order;
    that table is a field of its own, and the listing is the same whatever
    the concept table [by_name] holds. *)
Theorem relation_listing_sorted_keys (concept_model : ConceptModel Concept Relation) :
  ConceptModel_new "biolink-model" = Ok concept_model ->
  exists names,
    ModelRelationsQuery_post py_repr Concept Relation ConceptModel_new =
      Ok (VList (map VStr names)) /\
    Permutation names (map fst (relations_by_name concept_model)) /\
    (forall k, In k names <-> In k (map fst (relations_by_name concept_model))) /\
    StronglySorted string_le names /\
    (forall concepts : list (string * Concept),
       relation_names
         (Build_ConceptModel concepts (relations_by_name concept_model)) = names).
Proof.
  intros Hnew. exists (relation_names concept_model).
  unfold ModelRelationsQuery_post. rewrite Hnew. cbn [bind try_except].
  split; [reflexivity|]. unfold relation_names.
  split; [apply sorted_permutation|].
  split; [|split; [apply sorted_ascending|reflexivity]].
  intros k. split; apply Permutation_in;
    [|symmetry]; apply sorted_permutation.
Qed.

End ListingProperties.

(** ** The merge resource *)

Section MergeResourceProperties.

Variable Interpreter : Type.
Variable TranQL : pyval -> outcome Interpreter.
Variable merge_results : pyval -> Interpreter -> outcome pyval.

(** C10: a body without [messages] is merged as the empty list, a body
    without [interpreter_options] builds the interpreter on the empty
    mapping, and the defaulted lookups add no failure of their own: the
    resource returns whatever the constructor and the merge return. *)
Theorem merge_resource_defaults (request_json : pydict) :
  (Dict.get "messages" request_json = None ->
   MergeMessages_post Interpreter TranQL merge_results request_json =
     (tranql <- TranQL (Dict.get_default "interpreter_options" (VDict []) request_json) ;;
      merge_results (VList []) tranql)) /\
  (Dict.get "interpreter_options" request_json = None ->
   MergeMessages_post Interpreter TranQL merge_results request_json =
     (tranql <- TranQL (VDict []) ;;
      merge_results (Dict.get_default "messages" (VList []) request_json) tranql)) /\
  (Dict.get "messages" request_json = None ->
   Dict.get "interpreter_options" request_json = None ->
   forall tranql merged,
     TranQL (VDict []) = Ok tranql ->
     merge_results (VList []) tranql = Ok merged ->
     MergeMessages_post Interpreter TranQL merge_results request_json = Ok merged).
Proof.
  unfold MergeMessages_post, Dict.get_default. repeat split.
  - now intros ->.
  - now intros ->.
  - intros -> -> tranql merged HT Hm. rewrite HT. exact Hm.
Qed.

End MergeResourceProperties.

(** C3 as stated fails: the record rendered for [Exception("boom")] has the
    keys [message] and [details] and no [kind]. *)
Lemma handle_exception_entry_has_no_kind :
  errors_of (handle_exception repr_by_type (VException "Exception" "boom") false) =
    [VDict [("message", VStr "boom"); ("details", VStr "")]] /\
  Dict.keys [("message", VStr "boom"); ("details", VStr "")] = ["message"; "details"] /\
  Dict.get "kind" [("message", VStr "boom"); ("details", VStr "")] = None.
Proof. repeat split. Qed.

(** ** The message merger *)

Import MessageMerger.

#[local] Arguments key_eqb : simpl never.
#[local] Arguments edge_key : simpl never.

Lemma key_eqb_eq k1 k2 : key_eqb k1 k2 = true <-> k1 = k2.
Proof.
  destruct k1 as [[s1 t1] p1], k2 as [[s2 t2] p2]. unfold key_eqb.
  rewrite !andb_true_iff, !String.eqb_eq. split.
  - now intros [[-> ->] ->].
  - intros [= -> -> ->]. auto.
Qed.

Lemma key_eqb_neq k1 k2 : key_eqb k1 k2 = false <-> k1 <> k2.
Proof.
  rewrite <- key_eqb_eq. destruct (key_eqb k1 k2); split; congruence.
Qed.

Lemma remap_id_identity remap :
  Forall (fun p => fst p = snd p) remap -> forall i, remap_id remap i = i.
Proof.
  unfold remap_id. induction 1 as [|[a b] r Hab Hr IH]; intros i; simpl.
  - reflexivity.
  - destruct (String.eqb i a) eqn:E; [|apply IH].
    apply String.eqb_eq in E. simpl in Hab. subst. apply IH.
Qed.

Lemma remap_edges_identity remap es :
  Forall (fun p => fst p = snd p) remap -> map (remap_edge remap) es = es.
Proof.
  intros H. induction es as [|e r IH]; simpl; auto.
  rewrite IH. f_equal. destruct e. unfold remap_edge. simpl.
  now rewrite !remap_id_identity.
Qed.

(** *** Sets of names *)

Lemma mem_string_in x l : mem_string x l = true <-> In x l.
Proof.
  unfold mem_string. rewrite existsb_exists. split.
  - intros (y & Hy & E). apply String.eqb_eq in E. now subst.
  - intros H. exists x. split; [assumption|apply String.eqb_refl].
Qed.

Lemma in_union_strings l2 :
  forall l1 x, In x (union_strings l1 l2) <-> In x l1 \/ In x l2.
Proof.
  unfold union_strings.
  induction l2 as [|y r IH]; intros l1 x; simpl; [tauto|].
  rewrite IH. destruct (mem_string y l1) eqn:E.
  - apply mem_string_in in E. split; [tauto|].
    intros [H|[<- | H]]; auto.
  - rewrite in_app_iff. simpl. tauto.
Qed.

Lemma names_match_true m n :
  names_match m n = true <->
  exists a b, In a (node_name m) /\ In b (node_name n) /\ lower a = lower b.
Proof.
  unfold names_match. rewrite existsb_exists. split.
  - intros (a & Ha & H). apply existsb_exists in H as (b & Hb & E).
    apply String.eqb_eq in E. eauto.
  - intros (a & b & Ha & Hb & E). exists a. split; [assumption|].
    apply existsb_exists. exists b. split; [assumption|].
    now apply String.eqb_eq.
Qed.

Lemma names_match_sym m n : names_match m n = names_match n m.
Proof.
  apply eq_true_iff_eq. rewrite !names_match_true.
  split; intros (a & b & Ha & Hb & E); exists b, a; auto.
Qed.

Lemma same_entity_sym o m n : same_entity o m n = same_entity o n m.
Proof.
  unfold same_entity. now rewrite String.eqb_sym, names_match_sym.
Qed.

Lemma names_match_merge a b y :
  names_match (merge_node a b) y = names_match a y || names_match b y.
Proof.
  apply eq_true_iff_eq. rewrite orb_true_iff, !names_match_true. simpl.
  split.
  - intros (u & v & Hu & Hv & E). apply in_union_strings in Hu as [Hu|Hu]; eauto 7.
  - intros [(u & v & Hu & Hv & E)|(u & v & Hu & Hv & E)];
      exists u, v; rewrite in_union_strings; auto.
Qed.

(** A merged node matches a third node only if one of its parts did. *)
Lemma same_entity_merge o a b y :
  same_entity o a y = false -> same_entity o b y = false ->
  same_entity o (merge_node a b) y = false.
Proof.
  unfold same_entity. rewrite names_match_merge. cbn [node_id merge_node].
  rewrite !orb_false_iff, !andb_false_iff.
  intros [Hid Ha] [_ Hb]. split; [assumption|].
  destruct Ha as [Ha|Ha]; [now left|]. destruct Hb as [Hb|Hb]; [now left|].
  right. now rewrite Ha, Hb.
Qed.

Lemma same_entity_fold o y l :
  forall a,
    same_entity o a y = false ->
    Forall (fun b => same_entity o b y = false) l ->
    same_entity o (fold_left merge_node l a) y = false.
Proof.
  induction l as [|b r IH]; intros a Ha Hl; simpl; [assumption|].
  inversion Hl; subst. apply IH; [now apply same_entity_merge|assumption].
Qed.

Lemma fold_merge_node_id l : forall a, node_id (fold_left merge_node l a) = node_id a.
Proof. induction l as [|b r IH]; intros a; simpl; [reflexivity|]. now rewrite IH. Qed.

(** *** Nodes that share no key *)

Lemma separate_cons o m l :
  separate o (m :: l) <->
  Forall (fun y => same_entity o m y = false) l /\ separate o l.
Proof.
  unfold separate. split.
  - intros H. inversion H; subst. auto.
  - intros [H1 H2]. now constructor.
Qed.

Lemma separate_filter o f l : separate o l -> separate o (filter f l).
Proof.
  induction l as [|m r IH]; simpl; [auto|].
  rewrite separate_cons. intros [Hm Hr].
  destruct (f m); [|now apply IH].
  apply separate_cons. split; [|now apply IH].
  apply Forall_forall. intros y Hy. apply filter_In in Hy as [Hy _].
  rewrite Forall_forall in Hm. now apply Hm.
Qed.

Lemma separate_in o l x y :
  separate o l -> In x l -> In y l -> x = y \/ same_entity o x y = false.
Proof.
  induction l as [|m r IH]; simpl; [tauto|].
  rewrite separate_cons, Forall_forall. intros [Hm Hr] [<- | Hx] [<- | Hy]; auto.
  right. rewrite same_entity_sym. auto.
Qed.

Lemma separate_app o l1 l2 :
  separate o (l1 ++ l2) <->
  separate o l1 /\ separate o l2 /\
  forall x y, In x l1 -> In y l2 -> same_entity o x y = false.
Proof.
  induction l1 as [|m r IH]; simpl.
  - split; [intros H|tauto]. repeat split; [constructor|assumption|tauto].
  - rewrite !separate_cons, IH, Forall_app, !Forall_forall. split.
    + intros [[H1 H2] (H3 & H4 & H5)]. repeat split; auto.
      intros x y [<- | Hx] Hy; auto.
    + intros [[H1 H2] (H3 & H4)]. repeat split; auto.
Qed.

(** *** Putting a node in, under any options *)

Lemma fold_merge_node_closed (P : Node -> Prop) :
  (forall a b, P a -> P b -> P (merge_node a b)) ->
  forall l a, P a -> Forall P l -> P (fold_left merge_node l a).
Proof.
  intros Hclosed. induction l as [|b r IH]; intros a Ha Hl; simpl; [assumption|].
  inversion Hl; subst. apply IH; auto.
Qed.

Lemma upsert_node_closed (P : Node -> Prop) o n :
  (forall a b, P a -> P b -> P (merge_node a b)) ->
  forall acc, Forall P acc -> P n -> Forall P (fst (upsert_node o n acc)).
Proof.
  intros Hclosed. induction acc as [|m rest IH]; intros Hacc Hn; simpl.
  - now repeat constructor.
  - inversion Hacc as [|? ? Hm Hrest]; subst.
    destruct (same_entity o m n).
    + simpl. constructor.
      * apply fold_merge_node_closed; auto. apply Forall_app. split.
        -- apply Forall_forall. intros x Hx. apply filter_In in Hx as [Hx _].
           rewrite Forall_forall in Hrest. auto.
        -- now repeat constructor.
      * apply Forall_forall. intros x Hx. apply filter_In in Hx as [Hx _].
        rewrite Forall_forall in Hrest. auto.
    + specialize (IH Hrest Hn). destruct (upsert_node o n rest). simpl in *.
      now constructor.
Qed.

(** The merged nodes never hold two nodes that share a key. *)
Lemma upsert_node_separate o n :
  forall acc, separate o acc -> separate o (fst (upsert_node o n acc)).
Proof.
  induction acc as [|m rest IH]; simpl.
  - intros _. apply separate_cons. split; constructor.
  - rewrite separate_cons. intros [Hm Hrest].
    destruct (same_entity o m n) eqn:E.
    + simpl. apply separate_cons. split; [|now apply separate_filter].
      apply Forall_forall. intros y Hy. apply filter_In in Hy as [Hy Hyn].
      apply negb_true_iff in Hyn.
      apply same_entity_fold.
      * rewrite Forall_forall in Hm. auto.
      * apply Forall_app. split.
        -- apply Forall_forall. intros x Hx. apply filter_In in Hx as [Hx Hxn].
           destruct (separate_in o rest x y Hrest Hx Hy) as [-> | H]; [|exact H].
           congruence.
        -- repeat constructor. now rewrite same_entity_sym.
    + specialize (IH Hrest).
      assert (Hall : Forall (fun y => same_entity o m y = false)
                            (fst (upsert_node o n rest))).
      { apply upsert_node_closed; auto.
        intros a b Ha Hb. rewrite same_entity_sym.
        apply same_entity_merge; rewrite same_entity_sym; assumption. }
      destruct (upsert_node o n rest). simpl in *.
      apply separate_cons. now split.
Qed.

Lemma add_nodes_separate o ns :
  forall acc, separate o acc -> separate o (fst (add_nodes o ns acc)).
Proof.
  induction ns as [|n r IH]; intros acc Hacc; simpl; [assumption|].
  pose proof (upsert_node_separate o n acc Hacc) as Hu.
  destruct (upsert_node o n acc) as [acc1 remap1]. simpl in Hu.
  specialize (IH acc1 Hu). destruct (add_nodes o r acc1). exact IH.
Qed.

(** A node that matches nothing is added at the end. *)
Lemma upsert_node_unmatched o n :
  forall acc,
    Forall (fun m => same_entity o m n = false) acc ->
    upsert_node o n acc = (acc ++ [n], [(node_id n, node_id n)]).
Proof.
  induction acc as [|m rest IH]; intros H; simpl; [reflexivity|].
  inversion H as [|? ? Hm Hrest]; subst. rewrite Hm, (IH Hrest). reflexivity.
Qed.

Lemma add_nodes_unmatched o ns :
  forall acc,
    separate o (acc ++ ns) ->
    add_nodes o ns acc = (acc ++ ns, map (fun n => (node_id n, node_id n)) ns).
Proof.
  induction ns as [|n r IH]; intros acc Hsep; simpl.
  - now rewrite app_nil_r.
  - rewrite upsert_node_unmatched.
    + rewrite (IH (acc ++ [n])); rewrite <- app_assoc; [reflexivity|exact Hsep].
    + apply separate_app in Hsep as (_ & _ & H).
      apply Forall_forall. intros m Hm. apply H; [assumption|now left].
Qed.

(** *** Edges *)

Lemma upsert_edge_fresh e acc :
  ~ In (edge_key e) (map edge_key acc) -> upsert_edge e acc = acc ++ [e].
Proof.
  induction acc as [|m r IH]; simpl; auto.
  intros Hnot. destruct (key_eqb (edge_key m) (edge_key e)) eqn:E.
  - apply key_eqb_eq in E. tauto.
  - f_equal. apply IH. tauto.
Qed.

Lemma upsert_edge_known e acc :
  In (edge_key e) (map edge_key acc) ->
  map edge_key (upsert_edge e acc) = map edge_key acc.
Proof.
  induction acc as [|m r IH]; simpl; [tauto|].
  intros Hin. destruct (key_eqb (edge_key m) (edge_key e)) eqn:E; [reflexivity|].
  apply key_eqb_neq in E. simpl. f_equal. apply IH.
  destruct Hin; [contradiction|assumption].
Qed.

Lemma key_dec (k1 k2 : string * string * string) : {k1 = k2} + {k1 <> k2}.
Proof. repeat decide equality. Qed.

Lemma upsert_edge_keys e acc k :
  In k (map edge_key (upsert_edge e acc)) <->
  In k (map edge_key acc) \/ k = edge_key e.
Proof.
  destruct (in_dec key_dec (edge_key e) (map edge_key acc)) as [Hin|Hnot].
  - rewrite upsert_edge_known by assumption. split; [auto|].
    intros [H | ->]; assumption.
  - rewrite upsert_edge_fresh, map_app, in_app_iff by assumption. simpl.
    split.
    + intros [H|[<- | []]]; auto.
    + intros [H | ->]; auto.
Qed.

Lemma upsert_edge_nodup e acc :
  NoDup (map edge_key acc) -> NoDup (map edge_key (upsert_edge e acc)).
Proof.
  intros Hnd.
  destruct (in_dec key_dec (edge_key e) (map edge_key acc)) as [Hin|Hnot].
  - now rewrite upsert_edge_known.
  - rewrite upsert_edge_fresh, map_app by assumption. simpl.
    apply NoDup_app; [assumption|repeat constructor; simpl; tauto|].
    intros x Hx [<- | []]. contradiction.
Qed.

Lemma add_edges_keys es :
  forall acc k,
    In k (map edge_key (add_edges es acc)) <->
    In k (map edge_key acc) \/ In k (map edge_key es).
Proof.
  induction es as [|e r IH]; intros acc k; simpl; [tauto|].
  rewrite IH, upsert_edge_keys. intuition auto.
Qed.

Lemma add_edges_nodup es :
  forall acc, NoDup (map edge_key acc) -> NoDup (map edge_key (add_edges es acc)).
Proof.
  induction es as [|e r IH]; intros acc Hnd; simpl; auto using upsert_edge_nodup.
Qed.

Lemma add_edges_fresh es :
  forall acc, NoDup (map edge_key (acc ++ es)) -> add_edges es acc = acc ++ es.
Proof.
  induction es as [|e r IH]; intros acc Hnd; simpl.
  - now rewrite app_nil_r.
  - assert (Hnot : ~ In (edge_key e) (map edge_key acc)).
    { rewrite map_app in Hnd. simpl in Hnd.
      apply NoDup_remove_2 in Hnd. rewrite in_app_iff in Hnd. tauto. }
    rewrite upsert_edge_fresh by assumption.
    rewrite IH; rewrite <- app_assoc; [reflexivity|exact Hnd].
Qed.

Lemma add_edges_app l1 l2 :
  forall acc, add_edges (l1 ++ l2) acc = add_edges l2 (add_edges l1 acc).
Proof. induction l1 as [|e r IH]; intros acc; simpl; [reflexivity|apply IH]. Qed.

(** *** The merged message, under any options *)

Lemma identity_renamings (ns : list Node) :
  Forall (fun p : string * string => fst p = snd p)
         (map (fun n => (node_id n, node_id n)) ns).
Proof. induction ns; simpl; constructor; auto. Qed.

Lemma merge_into_clean o acc msg :
  separate o (nodes acc) -> clean o (merge_into o acc msg).
Proof.
  intros Hacc. unfold merge_into.
  pose proof (add_nodes_separate o (nodes msg) (nodes acc) Hacc) as Hn.
  destruct (add_nodes o (nodes msg) (nodes acc)) as [ns remap]. split; simpl.
  - exact Hn.
  - apply add_edges_nodup. constructor.
Qed.

Lemma fold_merge_clean o msgs :
  forall acc, clean o acc -> clean o (fold_left (merge_into o) msgs acc).
Proof.
  induction msgs as [|m r IH]; intros acc Hacc; simpl; [assumption|].
  apply IH, merge_into_clean, Hacc.
Qed.

(** What [merge] returns never holds two nodes that share the node key, nor
    two edges that share the edge key. *)
Lemma merge_clean o msgs : clean o (merge o msgs).
Proof. apply fold_merge_clean. split; constructor. Qed.

(** Merging a clean message into nothing gives it back. *)
Lemma merge_into_empty o msg : clean o msg -> merge_into o empty_message msg = msg.
Proof.
  intros [Hn He]. unfold merge_into. cbn [nodes edges empty_message app].
  rewrite (add_nodes_unmatched o (nodes msg) []) by exact Hn.
  rewrite remap_edges_identity by apply identity_renamings.
  rewrite add_edges_fresh by exact He. now destruct msg.
Qed.

(** Merging a merged prefix with the rest is merging all of it. *)
Lemma merge_merged_prefix o l1 l2 : merge o (merge o l1 :: l2) = merge o (l1 ++ l2).
Proof.
  unfold merge at 1 3. simpl. rewrite fold_left_app.
  rewrite merge_into_empty by apply merge_clean. reflexivity.
Qed.

(** *** Looking a node up by id *)

Lemma find_node_some i l m :
  find_node i l = Some m -> In m l /\ node_id m = i.
Proof.
  unfold find_node. intros H. apply find_some in H as [Hin E].
  now apply String.eqb_eq in E.
Qed.

Lemma find_node_none i l :
  find_node i l = None <-> ~ In i (map node_id l).
Proof.
  unfold find_node. induction l as [|m r IH]; simpl; [tauto|].
  destruct (String.eqb (node_id m) i) eqn:E.
  - apply String.eqb_eq in E. split; [discriminate|tauto].
  - apply String.eqb_neq in E. rewrite IH. tauto.
Qed.

Lemma find_node_member l :
  NoDup (map node_id l) ->
  forall m, In m l -> find_node (node_id m) l = Some m.
Proof.
  unfold find_node. induction l as [|a r IH]; simpl; [tauto|].
  intros Hnd m [-> | Hin].
  - now rewrite String.eqb_refl.
  - inversion Hnd as [|? ? Hnot Hr]; subst.
    destruct (String.eqb (node_id a) (node_id m)) eqn:E; [|now apply IH].
    apply String.eqb_eq in E. exfalso. apply Hnot. rewrite E.
    now apply in_map.
Qed.

(** *** Deduplication by id alone *)

Section IdBasedMerge.

Variable o : Options.
Hypothesis by_id : name_based_merging o = false.

Lemma same_entity_by_id m n :
  same_entity o m n = String.eqb (node_id m) (node_id n).
Proof. unfold same_entity. rewrite by_id. simpl. apply orb_false_r. Qed.

Lemma separate_by_id l : separate o l <-> NoDup (map node_id l).
Proof.
  induction l as [|m r IH]; simpl.
  - split; constructor.
  - rewrite separate_cons, IH, Forall_forall. split.
    + intros [Hm Hr]. constructor; [|assumption].
      intros Hin. apply in_map_iff in Hin as (y & Hy & Hin).
      specialize (Hm y Hin). rewrite same_entity_by_id in Hm.
      apply String.eqb_neq in Hm. congruence.
    + intros Hnd. inversion Hnd as [|? ? Hnot Hr]; subst. split; [|assumption].
      intros y Hy. rewrite same_entity_by_id. apply String.eqb_neq.
      intros E. apply Hnot. rewrite E. now apply in_map.
Qed.

(** With distinct ids the incoming node meets at most one node. *)
Lemma upsert_node_by_id n m rest :
  separate o (m :: rest) -> same_entity o m n = true ->
  upsert_node o n (m :: rest) = (merge_node m n :: rest, [(node_id n, node_id m)]).
Proof.
  rewrite separate_cons, Forall_forall. intros [Hm _] E. simpl. rewrite E.
  assert (Hnone : forall x, In x rest -> same_entity o x n = false).
  { intros x Hx. specialize (Hm x Hx). rewrite same_entity_by_id in *.
    apply String.eqb_eq in E. now rewrite <- E, String.eqb_sym. }
  assert (Hsame : filter (fun x => same_entity o x n) rest = []).
  { clear Hm. induction rest as [|x r IH]; simpl; [reflexivity|].
    rewrite (Hnone x) by now left. apply IH. intros y Hy. apply Hnone. now right. }
  assert (Hrest : filter (fun x => negb (same_entity o x n)) rest = rest).
  { clear Hm Hsame. induction rest as [|x r IH]; simpl; [reflexivity|].
    rewrite (Hnone x) by now left. simpl. f_equal. apply IH.
    intros y Hy. apply Hnone. now right. }
  now rewrite Hsame, Hrest.
Qed.

Lemma upsert_node_remap n :
  forall acc, Forall (fun p => fst p = snd p) (snd (upsert_node o n acc)).
Proof.
  induction acc as [|m rest IH]; simpl.
  - now repeat constructor.
  - destruct (same_entity o m n) eqn:E.
    + simpl. rewrite same_entity_by_id in E. apply String.eqb_eq in E.
      apply Forall_forall. intros p Hp. apply in_map_iff in Hp as (x & <- & Hx).
      simpl. apply in_app_iff in Hx as [Hx|[<- | []]]; [|congruence].
      apply filter_In in Hx as [_ Hx]. rewrite same_entity_by_id in Hx.
      apply String.eqb_eq in Hx. congruence.
    + destruct (upsert_node o n rest). exact IH.
Qed.

Lemma add_nodes_remap ns :
  forall acc, Forall (fun p => fst p = snd p) (snd (add_nodes o ns acc)).
Proof.
  induction ns as [|n r IH]; intros acc; simpl; [constructor|].
  pose proof (upsert_node_remap n acc) as Hu.
  destruct (upsert_node o n acc) as [acc1 remap1]. simpl in Hu.
  specialize (IH acc1). destruct (add_nodes o r acc1) as [acc2 remap2].
  simpl in *. apply Forall_app. now split.
Qed.

(** Where a node lands: merged into the node that has its id, or added. *)
Lemma find_upsert_node n i :
  forall acc,
    separate o acc ->
    find_node i (fst (upsert_node o n acc)) =
      if String.eqb (node_id n) i
      then Some (match find_node i acc with
                 | Some m => merge_node m n
                 | None => n
                 end)
      else find_node i acc.
Proof.
  induction acc as [|m r IH]; intros Hsep.
  - reflexivity.
  - destruct (same_entity o m n) eqn:Emn.
    + rewrite (upsert_node_by_id n m r Hsep Emn).
      rewrite same_entity_by_id in Emn. apply String.eqb_eq in Emn.
      unfold find_node. simpl. rewrite <- Emn.
      now destruct (String.eqb (node_id m) i).
    + apply separate_cons in Hsep as [_ Hr]. specialize (IH Hr).
      simpl. rewrite Emn. rewrite same_entity_by_id in Emn.
      destruct (upsert_node o n r) as [r' remap]. unfold find_node in *. simpl in *.
      destruct (String.eqb (node_id m) i) eqn:Emi; [|exact IH].
      apply String.eqb_eq in Emi. subst i.
      apply String.eqb_neq in Emn.
      destruct (String.eqb (node_id n) (node_id m)) eqn:Enm; [|reflexivity].
      apply String.eqb_eq in Enm. congruence.
Qed.

Lemma upsert_node_ids n acc i :
  separate o acc ->
  In i (map node_id (fst (upsert_node o n acc))) <->
  In i (map node_id acc) \/ i = node_id n.
Proof.
  intros Hsep.
  pose proof (find_node_none i (fst (upsert_node o n acc))) as Hnew.
  pose proof (find_node_none i acc) as Hold.
  rewrite (find_upsert_node n i acc Hsep) in Hnew.
  destruct (String.eqb (node_id n) i) eqn:E.
  - apply String.eqb_eq in E. split; [auto|]. intros _.
    destruct (in_dec string_dec i (map node_id (fst (upsert_node o n acc))));
      [assumption|]. apply Hnew in n0. discriminate.
  - apply String.eqb_neq in E.
    assert (Hiff : ~ In i (map node_id (fst (upsert_node o n acc))) <->
                   ~ In i (map node_id acc))
      by (rewrite <- Hnew, <- Hold; reflexivity).
    destruct (in_dec string_dec i (map node_id (fst (upsert_node o n acc))));
      destruct (in_dec string_dec i (map node_id acc)); try tauto.
    split; [tauto|]. intros [H|H]; [tauto|congruence].
Qed.

Lemma add_nodes_ids ns :
  forall acc i,
    separate o acc ->
    In i (map node_id (fst (add_nodes o ns acc))) <->
    In i (map node_id acc) \/ In i (map node_id ns).
Proof.
  induction ns as [|n r IH]; intros acc i Hsep; simpl; [tauto|].
  pose proof (upsert_node_ids n acc i Hsep) as Hu.
  pose proof (upsert_node_separate o n acc Hsep) as Hs.
  destruct (upsert_node o n acc) as [acc1 remap1]. simpl in Hu, Hs.
  specialize (IH acc1 i Hs). destruct (add_nodes o r acc1) as [acc2 remap2].
  simpl in *. rewrite IH, Hu. intuition auto.
Qed.

Lemma merge_into_by_id acc msg :
  merge_into o acc msg =
    {| nodes := fst (add_nodes o (nodes msg) (nodes acc));
       edges := add_edges (edges acc ++ edges msg) [] |}.
Proof.
  unfold merge_into.
  pose proof (add_nodes_remap (nodes msg) (nodes acc)) as Hr.
  destruct (add_nodes o (nodes msg) (nodes acc)) as [ns remap]. simpl in *.
  now rewrite remap_edges_identity.
Qed.

Lemma merge_nodup_ids msgs : NoDup (map node_id (nodes (merge o msgs))).
Proof. apply separate_by_id, merge_clean. Qed.

Lemma merge_pair_nodes A B :
  nodes (merge o [A; B]) =
    fst (add_nodes o (nodes B) (fst (add_nodes o (nodes A) []))).
Proof. unfold merge. simpl. now rewrite !merge_into_by_id. Qed.

Lemma merge_pair_node_ids A B i :
  In i (map node_id (nodes (merge o [A; B]))) <->
  In i (map node_id (nodes A)) \/ In i (map node_id (nodes B)).
Proof.
  rewrite merge_pair_nodes.
  rewrite add_nodes_ids by (apply add_nodes_separate; constructor).
  rewrite add_nodes_ids by constructor. simpl. tauto.
Qed.

Lemma merge_pair_edge_keys A B k :
  In k (map edge_key (edges (merge o [A; B]))) <->
  In k (map edge_key (edges A)) \/ In k (map edge_key (edges B)).
Proof.
  unfold merge. simpl. rewrite !merge_into_by_id. simpl.
  rewrite add_edges_keys, map_app, in_app_iff, add_edges_keys. simpl. tauto.
Qed.

Section Field.

(** A field that merging unions: the type set or the name set. *)
Variable field : Node -> list string.
Hypothesis field_merge :
  forall m n x, In x (field (merge_node m n)) <-> In x (field m) \/ In x (field n).

Local Abbreviation field_at := (field_at field).
Local Abbreviation field_from := (field_from field).

Lemma field_at_upsert n acc i x :
  separate o acc ->
  field_at i (fst (upsert_node o n acc)) x <->
  field_at i acc x \/ (node_id n = i /\ In x (field n)).
Proof.
  intros Hsep. unfold MessageMerger.field_at. rewrite find_upsert_node by assumption.
  destruct (String.eqb (node_id n) i) eqn:E.
  - apply String.eqb_eq in E. destruct (find_node i acc).
    + rewrite field_merge. tauto.
    + tauto.
  - apply String.eqb_neq in E. destruct (find_node i acc); tauto.
Qed.

Lemma field_at_add_nodes ns :
  forall acc i x,
    separate o acc ->
    field_at i (fst (add_nodes o ns acc)) x <->
    field_at i acc x \/ field_from i ns x.
Proof.
  unfold MessageMerger.field_from.
  induction ns as [|n r IH]; intros acc i x Hsep; simpl.
  - split; [tauto|]. intros [H|(n & [] & _)]. exact H.
  - pose proof (field_at_upsert n acc i x Hsep) as Hu.
    pose proof (upsert_node_separate o n acc Hsep) as Hs.
    destruct (upsert_node o n acc) as [acc1 remap1]. simpl in Hu, Hs.
    specialize (IH acc1 i x Hs). destruct (add_nodes o r acc1) as [acc2 remap2].
    simpl in *. rewrite IH, Hu. split.
    + intros [[H|[H1 H2]]|(n' & Hin & H1 & H2)]; eauto 6.
    + intros [H|(n' & [<- | Hin] & H1 & H2)]; eauto 6.
Qed.

Lemma field_at_merge_pair A B i x :
  field_at i (nodes (merge o [A; B])) x <->
  field_from i (nodes A) x \/ field_from i (nodes B) x.
Proof.
  rewrite merge_pair_nodes.
  rewrite field_at_add_nodes by (apply add_nodes_separate; constructor).
  rewrite field_at_add_nodes by constructor.
  unfold MessageMerger.field_at at 1. simpl. tauto.
Qed.

End Field.

Lemma merge_pair_covers A B : covers (merge o [A; B]) (merge o [B; A]).
Proof.
  split.
  - intros m Hin.
    pose proof (find_node_member _ (merge_nodup_ids [A; B]) m Hin) as Hm.
    assert (Hid : In (node_id m) (map node_id (nodes (merge o [B; A])))).
    { rewrite merge_pair_node_ids. apply or_comm.
      rewrite <- merge_pair_node_ids. now apply in_map. }
    destruct (find_node (node_id m) (nodes (merge o [B; A]))) as [n|] eqn:Hn;
      [|now apply find_node_none in Hn].
    exists n. destruct (find_node_some _ _ _ Hn) as [Hnin Hnid].
    split; [assumption|]. split; [congruence|].
    split; intros x.
    + pose proof (field_at_merge_pair node_type
                    (fun m n => in_union_strings _ _) A B (node_id m) x) as HA.
      pose proof (field_at_merge_pair node_type
                    (fun m n => in_union_strings _ _) B A (node_id m) x) as HB.
      unfold MessageMerger.field_at in HA, HB. rewrite Hm in HA. rewrite Hn in HB. tauto.
    + pose proof (field_at_merge_pair node_name
                    (fun m n => in_union_strings _ _) A B (node_id m) x) as HA.
      pose proof (field_at_merge_pair node_name
                    (fun m n => in_union_strings _ _) B A (node_id m) x) as HB.
      unfold MessageMerger.field_at in HA, HB. rewrite Hm in HA. rewrite Hn in HB. tauto.
  - intros k. rewrite !merge_pair_edge_keys. tauto.
Qed.

End IdBasedMerge.



(** ** Concrete instances *)

(** The query resource on a run that returned with two request errors. *)
Example query_warning_run :
  TranQLQuery_post repr_by_type pyval Sample.TranQL Sample.execute Sample.request =
    Ok (VDict
          [("knowledge_graph",
            VDict [("nodes", VList [VDict [("id", VStr "MONDO:0005405")]]);
                   ("edges", VList [])]);
           ("errors",
            VList [VDict [("message", VStr "Error invoking service");
                          ("details", VStr "HTTP 503")];
                   VDict [("message", VStr "malformed response");
                          ("details", VStr "")]]);
           ("status", VStr "Warning")]).
Proof. reflexivity. Qed.

(** The query resource on a run that raised after one request error. *)
Example query_failure_run :
  TranQLQuery_post repr_by_type pyval Sample.TranQL Sample.execute [] =
    Ok (VDict
          [("errors",
            VList [VDict [("message", VStr "empty query"); ("details", VStr "")];
                   VDict [("message", VStr "robokop timed out");
                          ("details", VStr "")]]);
           ("status", VStr "Error")]).
Proof. reflexivity. Qed.

(** A request error that is neither an exception, a string nor a list
    leaves no entry, and a result that is no dictionary turns the answer
    into an error response. *)
Example query_odd_contexts :
  TranQLQuery_post repr_by_type pyval Sample.TranQL
    (fun _ _ => Returned [("result", VDict []); ("requestErrors", VList [VNone])])
    Sample.request =
    Ok (VDict [("errors", VList []); ("status", VStr "Warning")]) /\
  TranQLQuery_post repr_by_type pyval Sample.TranQL
    (fun _ _ => Returned [("result", VNone); ("requestErrors", VList [VStr "late"])])
    Sample.request =
    Ok (VDict
          [("errors",
            VList [VDict [("message",
                           VStr "'NoneType' object has no attribute 'update'");
                          ("details", VStr "")];
                   VDict [("message", VStr "late"); ("details", VStr "")]]);
           ("status", VStr "Error")]).
Proof. split; reflexivity. Qed.

(** What [execute] raises outside [Exception] is not caught: the resource
    raises it in turn. *)
Example query_system_exit_propagates :
  TranQLQuery_post repr_by_type pyval Sample.TranQL
    (fun _ _ => Raised (VObject "SystemExit" true "1") Sample.failed_mem)
    Sample.request =
    Raise (VObject "SystemExit" true "1").
Proof. reflexivity. Qed.

Lemma query_partial_result_with_warning_witness :
  exists response,
    TranQLQuery_post repr_by_type pyval Sample.TranQL Sample.execute Sample.request =
      Ok (VDict response) /\
    Dict.get "knowledge_graph" response =
      Some (VDict [("nodes", VList [VDict [("id", VStr "MONDO:0005405")]]);
                   ("edges", VList [])]) /\
    Dict.get "errors" response =
      Some (VList [error_entry "Error invoking service" "HTTP 503";
                   error_entry "malformed response" ""]) /\
    Dict.get "status" response = Some (VStr "Warning").
Proof.
  destruct (query_partial_result_with_warning repr_by_type pyval Sample.TranQL
              Sample.execute Sample.request
              (VDict [("dynamic_id_resolution", VBool false)]) Sample.mem
              [("knowledge_graph",
                VDict [("nodes", VList [VDict [("id", VStr "MONDO:0005405")]]);
                       ("edges", VList [])])]
              [VTranQLException "ServiceInvocationError" "Error invoking service"
                 (VStr "HTTP 503");
               VException "ValueError" "malformed response"]
              eq_refl eq_refl eq_refl eq_refl eq_refl
              ltac:(discriminate))
    as (response & Hpost & Hkeep & _ & Hall & Hstatus).
  exists response. split; [exact Hpost|]. split; [|split; [|exact Hstatus]].
  - rewrite Hkeep by discriminate. reflexivity.
  - exact (proj1 (Hall eq_refl)).
Defined.

Lemma query_failure_is_error_response_witness :
  exists details,
    TranQLQuery_post repr_by_type pyval Sample.TranQL Sample.execute [] =
      Ok (VDict [("errors",
                  VList [error_entry "empty query" details;
                         error_entry "robokop timed out" ""]);
                 ("status", VStr "Error")]).
Proof.
  destruct (query_failure_is_error_response repr_by_type pyval Sample.TranQL
              Sample.execute [] (VDict [("dynamic_id_resolution", VBool false)])
              (VTranQLException "TranQLException" "empty query" VNone)
              Sample.failed_mem [VStr "robokop timed out"]
              eq_refl eq_refl eq_refl eq_refl)
    as (details & Hpost & _ & _).
  exists details. exact Hpost.
Defined.

(** The schema resource after a build that lost one source. *)
Example schema_warning_run :
  SchemaGraph_get repr_by_type (Ok Sample.schema) =
    Ok (VDict
          [("schema",
            VDict [("knowledge_graph",
                    VDict [("nodes", VList []); ("edges", VList [])])]);
           ("errors",
            VList [VDict [("message", VStr "rtx unreachable");
                          ("details", VStr "")]]);
           ("status", VStr "Warning")]).
Proof. reflexivity. Qed.

Lemma schema_response_keeps_schema_witness :
  exists obj,
    SchemaGraph_get repr_by_type (Ok Sample.schema) = Ok (VDict obj) /\
    Dict.get "schema" obj = Some (schema_message Sample.schema) /\
    obj = [("schema", schema_message Sample.schema);
           ("errors", VList [error_entry "rtx unreachable" ""]);
           ("status", VStr "Warning")].
Proof.
  destruct (schema_response_keeps_schema repr_by_type Sample.schema
              [VException "ConnectionError" "rtx unreachable"] eq_refl)
    as (obj & Hget & Hschema & _ & Hsome & _).
  exists obj. split; [exact Hget|]. split; [exact Hschema|].
  apply Hsome. discriminate.
Defined.

(** The two listings on a small taxonomy. *)
Example listings_run :
  ModelConceptsQuery_post repr_by_type unit unit Sample.ConceptModel_new =
    Ok (VList [VStr "chemical_substance"; VStr "disease"; VStr "gene"]) /\
  ModelRelationsQuery_post repr_by_type unit unit Sample.ConceptModel_new =
    Ok (VList [VStr "affects"; VStr "targets"; VStr "treats"]) /\
  ModelConceptsQuery_post repr_by_type unit unit
    (fun _ => Raise (VException "FileNotFoundError" "biolink-model.yaml")) =
    Ok (VDict [("errors",
                VList [VDict [("message", VStr "biolink-model.yaml");
                              ("details", VStr "")]]);
               ("status", VStr "Error")]).
Proof. repeat split. Qed.

Lemma concept_listing_sorted_keys_witness :
  exists names,
    ModelConceptsQuery_post repr_by_type unit unit Sample.ConceptModel_new =
      Ok (VList (map VStr names)) /\
    Permutation names ["gene"; "disease"; "chemical_substance"] /\
    (forall k, In k names <-> In k ["gene"; "disease"; "chemical_substance"]) /\
    StronglySorted string_le names.
Proof.
  apply (concept_listing_sorted_keys repr_by_type unit unit Sample.ConceptModel_new
           (Build_ConceptModel
              [("gene", tt); ("disease", tt); ("chemical_substance", tt)]
              [("treats", tt); ("affects", tt); ("targets", tt)])).
  reflexivity.
Defined.

Lemma relation_listing_sorted_keys_witness :
  exists names,
    ModelRelationsQuery_post repr_by_type unit unit Sample.ConceptModel_new =
      Ok (VList (map VStr names)) /\
    Permutation names ["treats"; "affects"; "targets"] /\
    (forall k, In k names <-> In k ["treats"; "affects"; "targets"]) /\
    StronglySorted string_le names /\
    (forall concepts : list (string * unit),
       relation_names
         (Build_ConceptModel concepts
            [("treats", tt); ("affects", tt); ("targets", tt)]) = names).
Proof.
  apply (relation_listing_sorted_keys repr_by_type unit unit Sample.ConceptModel_new
           (Build_ConceptModel
              [("gene", tt); ("disease", tt); ("chemical_substance", tt)]
              [("treats", tt); ("affects", tt); ("targets", tt)])).
  reflexivity.
Defined.

(** The merge resource on a body without either key. *)
Example merge_resource_empty_body :
  MergeMessages_post pyval Sample.TranQL
    (fun messages tranql => Ok (VTuple [messages; tranql])) [] =
    Ok (VTuple [VList []; VDict []]).
Proof. reflexivity. Qed.

(** The two messages of the resource's documentation, merged by id: two
    nodes, and both edges since their types differ. *)
Example merge_documented_messages :
  map node_id (nodes (merge default_options
                        [Sample.targets_message; Sample.interacts_message])) =
    ["n0"; "n1"] /\
  map edge_key (edges (merge default_options
                         [Sample.targets_message; Sample.interacts_message])) =
    [("n0", "n1", "targets"); ("n0", "n1", "interacts_with")].
Proof. split; reflexivity. Qed.

(** A node that meets two merged nodes, one by id and one by name, draws
    both into one: the output holds no two nodes that share a key. *)
Example merge_synonyms_into_one_node :
  map node_id (nodes (merge Sample.name_based_options
                        [Sample.synonym_message; Sample.renaming_message])) =
    ["n1"] /\
  map node_name (nodes (merge Sample.name_based_options
                          [Sample.synonym_message; Sample.renaming_message])) =
    [["ASA"; "aspirin"; "Aspirin"]].
Proof. split; reflexivity. Qed.


(** * Further properties of the resources *)

(** ** The exception handler on nested input *)

Section HandlerNesting.

Variable py_repr : pyval -> string.

Local Abbreviation handle := (handle_exception py_repr).

(** X1: the handler flattens: the errors of a concatenation are the errors
    of the parts one after the other, and wrapping lists in a list changes
    nothing. *)
Theorem handle_exception_flattens (l1 l2 : list pyval) (warning : bool) :
  errors_of (handle (VList (l1 ++ l2)) warning) =
    errors_of (handle (VList l1) warning) ++ errors_of (handle (VList l2) warning) /\
  errors_of (handle (VList [VList l1; VList l2]) warning) =
    errors_of (handle (VList (l1 ++ l2)) warning) /\
  errors_of (handle (VList [VList l1]) warning) =
    errors_of (handle (VList l1) warning).
Proof.
  rewrite !errors_of_handle, !rendered_list. cbn [flat_map].
  rewrite !rendered_list, !app_nil_r, flat_map_app. repeat split.
Qed.

Lemma rendered_leaves e :
  rendered py_repr e = map (render py_repr) (error_leaves e).
Proof.
  induction e using pyval_nested_ind; try reflexivity.
  rewrite rendered_list. cbn [error_leaves].
  induction H as [|x r Hx Hr IH]; simpl; [reflexivity|].
  now rewrite map_app, Hx, IH.
Qed.

Lemma error_leaves_are_errors e : forallb is_error (error_leaves e) = true.
Proof.
  induction e using pyval_nested_ind; try reflexivity.
  cbn [error_leaves].
  induction H as [|x r Hx Hr IH]; simpl; [reflexivity|].
  now rewrite forallb_app, Hx, IH.
Qed.

(** X2: the errors are the records of the exception instances and strings
    found in the input at any depth of list nesting, in order, one record
    each; any other value leaves no record. *)
Theorem handle_exception_renders_leaves (e : pyval) (warning : bool) :
  errors_of (handle e warning) = map (render py_repr) (error_leaves e) /\
  forallb is_error (error_leaves e) = true /\
  length (errors_of (handle e warning)) = length (error_leaves e).
Proof.
  rewrite errors_of_handle, rendered_leaves, length_map.
  repeat split. apply error_leaves_are_errors.
Qed.

(** X3: a [TranQLException] whose [details] are falsy ([None], the empty
    string, an empty container, zero) is reported exactly like a plain
    exception with the same text. *)
Theorem handle_exception_falsy_details
  (c c' m : string) (details : pyval) (warning : bool) :
  py_truthy details = false ->
  handle (VTranQLException c m details) warning = handle (VException c' m) warning.
Proof. intros H. cbn. now rewrite H. Qed.

(** X4: whatever the handler is given, exception objects included, its
    result holds only strings, lists and dictionaries and [json.dump] takes
    it. *)
Theorem handle_exception_result_serializable (e : pyval) (warning : bool) :
  json_serializable (VDict (handle e warning)) = true /\
  json_dump (VDict (handle e warning)) = Ok tt.
Proof.
  pose proof (json_handle_ok py_repr e warning) as H.
  unfold json_serializable, json_dump. now rewrite H.
Qed.

End HandlerNesting.

Lemma handle_exception_falsy_details_witness :
  handle_exception repr_by_type
    (VTranQLException "ServiceInvocationError" "no answer" (VList [])) true =
  handle_exception repr_by_type (VException "Exception" "no answer") true.
Proof.
  apply (handle_exception_falsy_details repr_by_type). reflexivity.
Defined.

(** ** The query resource beyond the warning and the failure *)

Section QueryAnswers.

Variable py_repr : pyval -> string.
Variable Interpreter : Type.
Variable TranQL : pyval -> outcome Interpreter.
Variable execute : Interpreter -> pyval -> execution.

Local Abbreviation post := (TranQLQuery_post py_repr Interpreter TranQL execute).
Local Abbreviation handle := (handle_exception py_repr).

(** X5: when [execute] returns and the context holds no request errors (no
    [requestErrors] entry, or an empty list), the response is the result as
    the context has it, with no [errors] or [status] added. *)
Theorem query_without_errors_returns_result
  (request_json : pydict) (tranql : Interpreter) (mem : pydict) :
  TranQL (VDict [("dynamic_id_resolution",
                  Dict.get_default "dynamicIdResolution" (VBool false) request_json)]) =
    Ok tranql ->
  execute tranql (Dict.get_default "query" (VStr "") request_json) = Returned mem ->
  Dict.get "requestErrors" mem = None \/
  Dict.get "requestErrors" mem = Some (VList []) ->
  json_serializable (Dict.get_default "result" (VDict []) mem) = true ->
  post request_json = Ok (Dict.get_default "result" (VDict []) mem).
Proof.
  intros HT Hrun Herrs Hjson.
  unfold TranQLQuery_post. rewrite HT. cbn [bind]. rewrite Hrun.
  unfold query_try_body.
  assert (Hlen : py_len (Dict.get_default "requestErrors" (VList []) mem) = Ok 0%Z)
    by (unfold Dict.get_default; destruct Herrs as [-> | ->]; reflexivity).
  rewrite Hlen. cbn [bind try_except Z.gtb Z.compare].
  now rewrite json_dump_ok by apply serializable_offender, Hjson.
Qed.

(** X6: a response the resource returns has been through [json.dump], so it
    is always JSON data. *)
Theorem query_response_is_json (request_json : pydict) (response : pyval) :
  post request_json = Ok response -> json_serializable response = true.
Proof.
  unfold TranQLQuery_post, json_serializable, json_dump.
  destruct (TranQL _) as [tranql|e]; cbn [bind]; [|discriminate].
  destruct (try_except _ _) as [result|e]; cbn [bind]; [|discriminate].
  destruct (json_offender result) eqn:E; cbn [bind]; [discriminate|].
  intros [= <-]. now rewrite E.
Qed.

Lemma query_except_answers run e :
  Dict.get "requestErrors" (context_mem run) = None \/
  (exists errs, Dict.get "requestErrors" (context_mem run) = Some (VList errs)) ->
  exists errs,
    query_except py_repr run e = Ok (VDict (handle (VList (e :: errs)) false)).
Proof.
  intros H. unfold query_except, Dict.get_default.
  destruct H as [-> | [errs ->]]; eexists; reflexivity.
Qed.


(** X8: when [execute] returns with request errors but the result is not a
    dictionary, [update] fails inside the [try], so the answer is an error
    response: the [AttributeError] first, then the request errors, and the
    result itself is lost. *)
Theorem query_result_without_update
  (request_json : pydict) (tranql : Interpreter) (mem : pydict)
  (result : pyval) (errs : list pyval) :
  TranQL (VDict [("dynamic_id_resolution",
                  Dict.get_default "dynamicIdResolution" (VBool false) request_json)]) =
    Ok tranql ->
  execute tranql (Dict.get_default "query" (VStr "") request_json) = Returned mem ->
  Dict.get "result" mem = Some result ->
  json_serializable result = true ->
  (forall d, result <> VDict d) ->
  Dict.get "requestErrors" mem = Some (VList errs) ->
  errs <> [] ->
  post request_json =
    Ok (VDict [("errors",
                VList (error_entry
                         ("'" ++ type_name result ++ "' object has no attribute 'update'")
                         ""
                       :: flat_map (rendered py_repr) errs));
               ("status", VStr "Error")]).
Proof.
  intros HT Hrun Hres Hjson Hnot Herrs Hne.
  unfold TranQLQuery_post. rewrite HT. cbn [bind]. rewrite Hrun.
  unfold query_try_body, Dict.get_default, py_getitem.
  rewrite Hres, Herrs. cbn [py_len bind].
  rewrite length_positive by assumption. cbn [bind].
  assert (Hup : py_update result (handle (VList errs) true) =
                Raise (VException "AttributeError"
                         ("'" ++ type_name result
                          ++ "' object has no attribute 'update'"))).
  { destruct result; try reflexivity. destruct (Hnot entries eq_refl). }
  rewrite Hup. cbn [try_except is_exception]. unfold query_except, Dict.get_default.
  cbn [context_mem]. rewrite Herrs. cbn [py_iter bind].
  rewrite json_dump_ok by apply json_handle_ok. cbn [bind].
  now rewrite handle_shape, rendered_list.
Qed.

End QueryAnswers.

(** ** The schema resource and its copy loop *)

Lemma get_of_entry (d : pydict) k v :
  NoDup (Dict.keys d) -> In (k, v) d -> Dict.get k d = Some v.
Proof.
  unfold Dict.keys. induction d as [|[k' v'] r IH]; simpl; [tauto|].
  intros Hnd [[= -> ->] | Hin].
  - now rewrite String.eqb_refl.
  - inversion Hnd as [|? ? Hnot Hr]; subst.
    destruct (String.eqb k k') eqn:E; [|now apply IH].
    apply String.eqb_eq in E. subst k'. exfalso. apply Hnot.
    change k with (fst (k, v)). now apply in_map.
Qed.

Lemma copy_loop_as_sets (errors : pydict) (rest : pydict) :
  (forall kv, In kv rest -> Dict.get (fst kv) errors = Some (snd kv)) ->
  forall obj,
    fold_left (fun obj key =>
                 match Dict.get key errors with
                 | Some v => Dict.set key v obj
                 | None => obj
                 end) (map fst rest) obj =
    fold_left (fun acc kv => Dict.set (fst kv) (snd kv) acc) rest obj.
Proof.
  induction rest as [|kv r IH]; intros Hget obj; simpl; [reflexivity|].
  rewrite (Hget kv) by now left. apply IH. intros kv' Hin. apply Hget. now right.
Qed.

(** X9: the key-by-key copy of [SchemaGraph.get] does what
    [result.update(errors)] does in [TranQLQuery.post]: for a dictionary
    (its keys are distinct) both give the same target. *)
Theorem copy_keys_is_update (errors obj : pydict) :
  NoDup (Dict.keys errors) -> copy_keys errors obj = Dict.update obj errors.
Proof.
  intros Hnd. unfold copy_keys, Dict.update, Dict.keys.
  apply copy_loop_as_sets. intros [k v] Hin. now apply get_of_entry.
Qed.

Lemma copy_keys_is_update_witness :
  copy_keys [("errors", VList []); ("status", VStr "Warning")]
            [("schema", VNone); ("status", VStr "stale")] =
  Dict.update [("schema", VNone); ("status", VStr "stale")]
              [("errors", VList []); ("status", VStr "Warning")].
Proof.
  apply copy_keys_is_update. repeat constructor; simpl; intuition discriminate.
Defined.

Section SchemaAnswers.

Variable py_repr : pyval -> string.


End SchemaAnswers.

(** ** The listings when the taxonomy fails or is reordered *)

Section ListingAnswers.

Variable py_repr : pyval -> string.
Variable Concept Relation : Type.

(** X11: when the taxonomy constructor raises an exception, both listings
    return, rather than raise, an error response with one record whose
    message is the exception's text. *)
Theorem listings_report_constructor_failure
  (ConceptModel_new : string -> outcome (ConceptModel Concept Relation)) (e : pyval) :
  ConceptModel_new "biolink-model" = Raise e ->
  is_exception e = true ->
  exists details,
    ModelConceptsQuery_post py_repr Concept Relation ConceptModel_new =
      Ok (VDict [("errors", VList [error_entry (py_str py_repr e) details]);
                 ("status", VStr "Error")]) /\
    ModelRelationsQuery_post py_repr Concept Relation ConceptModel_new =
      Ok (VDict [("errors", VList [error_entry (py_str py_repr e) details]);
                 ("status", VStr "Error")]).
Proof.
  intros Hnew Hexc. destruct (render_message py_repr e Hexc) as [details Hd].
  exists details. unfold ModelConceptsQuery_post, ModelRelationsQuery_post.
  rewrite Hnew. cbn [bind try_except]. rewrite Hexc, handle_shape.
  rewrite rendered_error by (destruct e; try discriminate; reflexivity).
  now rewrite Hd.
Qed.

(** X12: the listings do not depend on the order in which the tables were
    filled: two taxonomies with the same keys, in any order, give the same
    responses. *)
Theorem listings_ignore_insertion_order
  (new1 new2 : string -> outcome (ConceptModel Concept Relation))
  (model1 model2 : ConceptModel Concept Relation) :
  new1 "biolink-model" = Ok model1 ->
  new2 "biolink-model" = Ok model2 ->
  Permutation (map fst (by_name model1)) (map fst (by_name model2)) ->
  Permutation (map fst (relations_by_name model1))
              (map fst (relations_by_name model2)) ->
  ModelConceptsQuery_post py_repr Concept Relation new1 =
    ModelConceptsQuery_post py_repr Concept Relation new2 /\
  ModelRelationsQuery_post py_repr Concept Relation new1 =
    ModelRelationsQuery_post py_repr Concept Relation new2.
Proof.
  intros H1 H2 Hc Hr. unfold ModelConceptsQuery_post, ModelRelationsQuery_post.
  rewrite H1, H2. cbn [bind try_except].
  assert (Hsame : forall l1 l2, Permutation l1 l2 -> sorted l1 = sorted l2).
  { intros l1 l2 Hp. apply ascending_unique; try apply sorted_ascending.
    rewrite (sorted_permutation l1), (sorted_permutation l2). exact Hp. }
  unfold concept_names, relation_names.
  now rewrite (Hsame _ _ Hc), (Hsame _ _ Hr).
Qed.

End ListingAnswers.

(** ** The annotation resource *)

Lemma set_keeps_keys k v (d : pydict) :
  has_key k d = true -> Dict.keys (Dict.set k v d) = Dict.keys d.
Proof.
  unfold has_key, Dict.keys. induction d as [|[k' v'] r IH]; simpl; [discriminate|].
  destruct (String.eqb k k') eqn:E; simpl; [reflexivity|].
  intros H. now rewrite IH.
Qed.

Lemma has_key_by_keys k (d : pydict) : has_key k d = true <-> In k (Dict.keys d).
Proof.
  unfold has_key, Dict.keys. induction d as [|[k' v'] r IH]; simpl.
  - split; [discriminate|tauto].
  - destruct (String.eqb k k') eqn:E.
    + apply String.eqb_eq in E. split; auto.
    + apply String.eqb_neq in E. rewrite IH. split; [tauto|].
      intros [H|H]; [congruence|exact H].
Qed.

Section AnnotateProperties.

Variable py_contains_other : pyval -> pyval -> outcome bool.
Variable py_setitem_other : pyval -> pyval -> pyval -> outcome pyval.
Variable fresh_mem : outcome pydict.
Variable requests_post_json : string -> pyval -> outcome pyval.

Local Abbreviation step := (annotate_step py_contains_other py_setitem_other).
Local Abbreviation loop := (annotate_loop py_contains_other py_setitem_other).
Local Abbreviation annotate :=
  (AnnotateGraph_post py_contains_other py_setitem_other fresh_mem requests_post_json).

(** One result on a message object: nothing changes, or one existing key
    takes the result's graph. *)
Lemma annotate_step_dict (d : pydict) (result r : pyval) :
  step (VDict d) result = Ok r ->
  (r = VDict d /\
   forall k, py_subscript result "result_type" = Ok (VStr k) -> has_key k d = false) \/
  (exists k g,
     py_subscript result "result_type" = Ok (VStr k) /\ has_key k d = true /\
     py_subscript result "result_graph" = Ok g /\ r = VDict (Dict.set k g d)).
Proof.
  unfold annotate_step.
  destruct (py_subscript result "result_type") as [type|e]; cbn [bind]; [|discriminate].
  unfold py_contains.
  destruct type as [| | |k| | | | | |];
    try (destruct (unhashable _); cbn [bind]; [discriminate|];
         intros [= <-]; left; split; [reflexivity|discriminate]).
  cbn [bind]. destruct (has_key k d) eqn:Hk.
  - destruct (py_subscript result "result_graph") as [g|e]; cbn [bind py_setitem];
      [|discriminate].
    intros [= <-]. right. now exists k, g.
  - intros [= <-]. left. split; [reflexivity|]. now intros k' [= <-].
Qed.

Lemma annotate_loop_dict (results : list pyval) :
  forall (d : pydict) (r : pyval),
    loop results (VDict d) = Ok r ->
    exists d',
      r = VDict d' /\ Dict.keys d' = Dict.keys d /\
      forall k,
        (forall result, In result results ->
                        py_subscript result "result_type" <> Ok (VStr k)) ->
        Dict.get k d' = Dict.get k d.
Proof.
  induction results as [|result rest IH]; intros d r; cbn [annotate_loop].
  - intros [= <-]. now exists d.
  - destruct (step (VDict d) result) as [m|e] eqn:Hstep; cbn [bind]; [|discriminate].
    intros Hrest.
    destruct (annotate_step_dict d result m Hstep)
      as [[-> _] | (k0 & g & Htype & Hk & _ & ->)].
    + destruct (IH d r Hrest) as (d' & -> & Hkeys & Hget).
      exists d'. repeat split; auto. intros k Hno. apply Hget.
      intros result' Hin. apply Hno. now right.
    + destruct (IH _ r Hrest) as (d' & -> & Hkeys & Hget).
      exists d'. split; [reflexivity|]. split.
      * now rewrite Hkeys, set_keeps_keys.
      * intros k Hno. rewrite Hget by (intros result' Hin; apply Hno; now right).
        apply get_set_other. intros ->. apply (Hno result); [now left|exact Htype].
Qed.

Lemma annotate_loop_app (l1 l2 : list pyval) :
  forall m, loop (l1 ++ l2) m = (m' <- loop l1 m ;; loop l2 m').
Proof.
  induction l1 as [|x r IH]; intros m; cbn [annotate_loop app bind]; [reflexivity|].
  destruct (step m x); cbn [bind]; [apply IH|reflexivity].
Qed.

(** X13: when the resource answers for a message object, the answer is that
    object with exactly the keys it came with, in the same order: results
    never add or remove a key. *)
Theorem annotate_keeps_keys (request_json d : pydict) (response : pyval) :
  Dict.get "message" request_json = Some (VDict d) ->
  annotate request_json = Ok response ->
  exists d', response = VDict d' /\ Dict.keys d' = Dict.keys d.
Proof.
  intros Hmsg. unfold AnnotateGraph_post, py_getitem. rewrite Hmsg.
  destruct fresh_mem as [mem|e]; cbn [bind]; [|discriminate].
  destruct (py_add_str _ _) as [url|e]; cbn [bind]; [|discriminate].
  destruct (requests_post_json url (VDict d)) as [data|e]; cbn [bind]; [|discriminate].
  destruct (py_subscript data "results") as [results|e]; cbn [bind]; [|discriminate].
  destruct (py_for_items results) as [items|e]; cbn [bind]; [|discriminate].
  intros Hloop. destruct (annotate_loop_dict items d response Hloop)
    as (d' & -> & Hkeys & _).
  now exists d'.
Qed.

(** X14: a key of the message object that no result names as its
    [result_type] keeps its value through the loop. *)
Theorem annotate_leaves_other_keys
  (results : list pyval) (d : pydict) (response : pyval) (k : string) :
  loop results (VDict d) = Ok response ->
  (forall result, In result results ->
                  py_subscript result "result_type" <> Ok (VStr k)) ->
  exists d', response = VDict d' /\ Dict.get k d' = Dict.get k d.
Proof.
  intros Hloop Hno.
  destruct (annotate_loop_dict results d response Hloop) as (d' & -> & _ & Hget).
  exists d'. split; [reflexivity|]. now apply Hget.
Qed.

(** X15: when several results name the same key of the message object, the
    graph of the last one is what the key holds in the end. *)
Theorem annotate_last_result_wins
  (before after : list pyval) (result : pyval) (d : pydict) (k : string)
  (graph response : pyval) :
  py_subscript result "result_type" = Ok (VStr k) ->
  py_subscript result "result_graph" = Ok graph ->
  has_key k d = true ->
  (forall later, In later after ->
                 py_subscript later "result_type" <> Ok (VStr k)) ->
  loop (before ++ result :: after) (VDict d) = Ok response ->
  exists d', response = VDict d' /\ Dict.get k d' = Some graph.
Proof.
  intros Htype Hgraph Hk Hlater. rewrite annotate_loop_app.
  destruct (loop before (VDict d)) as [m|e] eqn:Hbefore; cbn [bind]; [|discriminate].
  destruct (annotate_loop_dict before d m Hbefore) as (d1 & -> & Hkeys & _).
  assert (Hk1 : has_key k d1 = true)
    by (apply has_key_by_keys; rewrite Hkeys; now apply has_key_by_keys).
  cbn [annotate_loop]. unfold annotate_step at 1. rewrite Htype. cbn [bind py_contains].
  rewrite Hk1, Hgraph. cbn [bind py_setitem]. intros Hafter.
  destruct (annotate_loop_dict after _ response Hafter) as (d' & -> & _ & Hget).
  exists d'. split; [reflexivity|]. rewrite Hget by assumption.
  apply get_set_same.
Qed.

(** X16: when every result is of a type that is hashable and is no key of
    the message object, the resource returns the message object as it was
    sent; such a result needs no [result_graph]. *)
Theorem annotate_unmatched_results_change_nothing
  (request_json mem d : pydict) (backplane : string) (data : pyval)
  (results : list pyval) :
  fresh_mem = Ok mem ->
  Dict.get "backplane" mem = Some (VStr backplane) ->
  Dict.get "message" request_json = Some (VDict d) ->
  requests_post_json (backplane ++ "/graph/gnbr/decorate") (VDict d) = Ok data ->
  py_subscript data "results" = Ok (VList results) ->
  Forall (fun result =>
            exists type,
              py_subscript result "result_type" = Ok type /\
              unhashable type = None /\
              forall k, type = VStr k -> has_key k d = false) results ->
  annotate request_json = Ok (VDict d).
Proof.
  intros Hmem Hback Hmsg Hpost Hdata Hall.
  unfold AnnotateGraph_post, py_getitem. rewrite Hmem, Hmsg. cbn [bind].
  rewrite Hback. cbn [py_add_str bind]. rewrite Hpost. cbn [bind].
  rewrite Hdata. cbn [py_for_items bind]. clear Hdata.
  induction Hall as [|result rest (type & Htype & Hhash & Hkey) Hrest IH];
    cbn [annotate_loop]; [reflexivity|].
  assert (Hstep : step (VDict d) result = Ok (VDict d)).
  { unfold annotate_step. rewrite Htype. cbn [bind py_contains].
    destruct type; try (rewrite Hhash; reflexivity).
    now rewrite (Hkey s eq_refl). }
  rewrite Hstep. cbn [bind]. exact IH.
Qed.

(** X17: with the interpreter built, a body without [message] raises
    [KeyError], and a context without [backplane] raises the [TypeError] of
    [None + str]; in both cases whatever the annotator would have answered
    plays no part. *)
Theorem annotate_missing_message_or_backplane
  (request_json mem : pydict) :
  fresh_mem = Ok mem ->
  (Dict.get "message" request_json = None ->
   annotate request_json = Raise (VException "KeyError" "'message'")) /\
  (forall message,
     Dict.get "message" request_json = Some message ->
     Dict.get "backplane" mem = None ->
     annotate request_json =
       Raise (VException "TypeError"
                "unsupported operand type(s) for +: 'NoneType' and 'str'")).
Proof.
  intros Hmem. unfold AnnotateGraph_post, py_getitem. rewrite Hmem. cbn [bind].
  split.
  - now intros ->.
  - intros message -> ->. reflexivity.
Qed.

End AnnotateProperties.

(** ** Concrete instances of the further properties *)

Lemma query_without_errors_returns_result_witness :
  TranQLQuery_post repr_by_type pyval Sample.TranQL SampleRuns.execute_clean
    Sample.request =
  Ok (VDict [("knowledge_graph",
              VDict [("nodes", VList [VDict [("id", VStr "CHEBI:15365")]]);
                     ("edges", VList [])])]).
Proof.
  apply (query_without_errors_returns_result repr_by_type pyval Sample.TranQL
           SampleRuns.execute_clean Sample.request
           (VDict [("dynamic_id_resolution", VBool false)]) SampleRuns.clean_mem);
    try reflexivity.
  now left.
Defined.

Lemma query_response_is_json_witness :
  json_serializable
    (VDict [("errors",
             VList [VDict [("message", VStr "empty query"); ("details", VStr "")];
                    VDict [("message", VStr "robokop timed out");
                           ("details", VStr "")]]);
            ("status", VStr "Error")]) = true.
Proof.
  apply (query_response_is_json repr_by_type pyval Sample.TranQL Sample.execute []).
  reflexivity.
Defined.


Lemma query_result_without_update_witness :
  TranQLQuery_post repr_by_type pyval Sample.TranQL SampleRuns.execute_odd
    Sample.request =
  Ok (VDict [("errors",
              VList [error_entry "'list' object has no attribute 'update'" "";
                     error_entry "icees timed out" ""]);
             ("status", VStr "Error")]).
Proof.
  apply (query_result_without_update repr_by_type pyval Sample.TranQL
           SampleRuns.execute_odd Sample.request
           (VDict [("dynamic_id_resolution", VBool false)]) SampleRuns.odd_mem
           (VList []) [VStr "icees timed out"]);
    try reflexivity; discriminate.
Defined.

Lemma listings_report_constructor_failure_witness :
  exists details,
    ModelConceptsQuery_post repr_by_type unit unit SampleRuns.ConceptModel_missing =
      Ok (VDict [("errors", VList [error_entry "biolink-model.yaml" details]);
                 ("status", VStr "Error")]) /\
    ModelRelationsQuery_post repr_by_type unit unit SampleRuns.ConceptModel_missing =
      Ok (VDict [("errors", VList [error_entry "biolink-model.yaml" details]);
                 ("status", VStr "Error")]).
Proof.
  apply (listings_report_constructor_failure repr_by_type unit unit
           SampleRuns.ConceptModel_missing
           (VException "FileNotFoundError" "biolink-model.yaml"));
    reflexivity.
Defined.

Lemma listings_ignore_insertion_order_witness :
  ModelConceptsQuery_post repr_by_type unit unit Sample.ConceptModel_new =
    ModelConceptsQuery_post repr_by_type unit unit SampleRuns.ConceptModel_reordered /\
  ModelRelationsQuery_post repr_by_type unit unit Sample.ConceptModel_new =
    ModelRelationsQuery_post repr_by_type unit unit SampleRuns.ConceptModel_reordered.
Proof.
  apply (listings_ignore_insertion_order repr_by_type unit unit
           Sample.ConceptModel_new SampleRuns.ConceptModel_reordered
           (Build_ConceptModel
              [("gene", tt); ("disease", tt); ("chemical_substance", tt)]
              [("treats", tt); ("affects", tt); ("targets", tt)])
           (Build_ConceptModel
              [("chemical_substance", tt); ("gene", tt); ("disease", tt)]
              [("targets", tt); ("treats", tt); ("affects", tt)]));
    try reflexivity.
  - symmetry. apply (Permutation_cons_append ["gene"; "disease"] "chemical_substance").
  - symmetry. apply (Permutation_cons_append ["treats"; "affects"] "targets").
Defined.

(** The annotation resource on the sample annotator: the knowledge graph is
    replaced by the later of the two graphs sent for it, the other keys
    stay, and the result for [answers] is passed over. *)
Example annotate_run :
  AnnotateGraph_post SampleRuns.contains_other SampleRuns.setitem_other
    SampleRuns.fresh_mem SampleRuns.requests_post_json
    [("message", VDict SampleRuns.message)] =
  Ok (VDict
        [("question_graph", VDict [("nodes", VList []); ("edges", VList [])]);
         ("knowledge_graph", SampleRuns.decorated);
         ("knowledge_map", VList [])]).
Proof. reflexivity. Qed.

Lemma annotate_keeps_keys_witness :
  exists d',
    VDict [("question_graph", VDict [("nodes", VList []); ("edges", VList [])]);
           ("knowledge_graph", SampleRuns.decorated);
           ("knowledge_map", VList [])] = VDict d' /\
    Dict.keys d' = Dict.keys SampleRuns.message.
Proof.
  apply (annotate_keeps_keys SampleRuns.contains_other SampleRuns.setitem_other
           SampleRuns.fresh_mem SampleRuns.requests_post_json
           [("message", VDict SampleRuns.message)] SampleRuns.message);
    reflexivity.
Defined.

Lemma annotate_leaves_other_keys_witness :
  exists d',
    VDict [("question_graph", VDict [("nodes", VList []); ("edges", VList [])]);
           ("knowledge_graph", SampleRuns.decorated);
           ("knowledge_map", VList [])] = VDict d' /\
    Dict.get "knowledge_map" d' = Dict.get "knowledge_map" SampleRuns.message.
Proof.
  apply (annotate_leaves_other_keys SampleRuns.contains_other SampleRuns.setitem_other
           SampleRuns.annotator_results SampleRuns.message).
  - reflexivity.
  - intros result [<- | [<- | [<- | []]]]; discriminate.
Defined.

Lemma annotate_last_result_wins_witness :
  exists d',
    VDict [("question_graph", VDict [("nodes", VList []); ("edges", VList [])]);
           ("knowledge_graph", SampleRuns.decorated);
           ("knowledge_map", VList [])] = VDict d' /\
    Dict.get "knowledge_graph" d' = Some SampleRuns.decorated.
Proof.
  apply (annotate_last_result_wins SampleRuns.contains_other SampleRuns.setitem_other
           [VDict [("result_type", VStr "knowledge_graph"); ("result_graph", VDict [])]]
           [VDict [("result_type", VStr "answers")]]
           (VDict [("result_type", VStr "knowledge_graph");
                   ("result_graph", SampleRuns.decorated)])
           SampleRuns.message "knowledge_graph" SampleRuns.decorated);
    try reflexivity.
  intros later [<- | []]. discriminate.
Defined.

Lemma annotate_unmatched_results_change_nothing_witness :
  AnnotateGraph_post SampleRuns.contains_other SampleRuns.setitem_other
    SampleRuns.fresh_mem SampleRuns.requests_post_json_other
    [("message", VDict SampleRuns.message)] =
  Ok (VDict SampleRuns.message).
Proof.
  apply (annotate_unmatched_results_change_nothing SampleRuns.contains_other
           SampleRuns.setitem_other SampleRuns.fresh_mem
           SampleRuns.requests_post_json_other
           [("message", VDict SampleRuns.message)]
           [("backplane", VStr "http://localhost:8099")] SampleRuns.message
           "http://localhost:8099"
           (VDict [("results",
                    VList [VDict [("result_type", VStr "answers")];
                           VDict [("result_type", VInt 7);
                                  ("result_graph", VNone)]])])
           [VDict [("result_type", VStr "answers")];
            VDict [("result_type", VInt 7); ("result_graph", VNone)]]);
    try reflexivity.
  repeat constructor.
  - exists (VStr "answers"). repeat split. now intros k [= <-].
  - exists (VInt 7). repeat split. discriminate.
Defined.

Lemma annotate_missing_message_or_backplane_witness :
  AnnotateGraph_post SampleRuns.contains_other SampleRuns.setitem_other
    SampleRuns.fresh_mem SampleRuns.requests_post_json [] =
  Raise (VException "KeyError" "'message'").
Proof.
  exact (proj1 (annotate_missing_message_or_backplane SampleRuns.contains_other
                  SampleRuns.setitem_other SampleRuns.fresh_mem
                  SampleRuns.requests_post_json []
                  [("backplane", VStr "http://localhost:8099")] eq_refl)
               eq_refl).
Defined.

(** ** The handler and the call stack *)

Section HandlerStackProperties.

Variable py_repr : pyval -> string.

Lemma call_depth_positive e : 1 <= call_depth e.
Proof. destruct e; simpl; lia. Qed.

(** On a stack of [frames] calls the method returns what
    [handle_exception] computes when the value takes no more calls than
    that, and raises [RecursionError] otherwise. *)
Lemma handle_exception_within_spec (frames : nat) :
  forall e warning,
    handle_exception_within py_repr frames e warning =
      if Nat.leb (call_depth e) frames
      then Ok (handle_exception py_repr e warning)
      else Raise (VException "RecursionError" "maximum recursion depth exceeded").
Proof.
  induction frames as [|frames IH]; intros e warning.
  - pose proof (call_depth_positive e) as Hpos.
    destruct (Nat.leb_spec (call_depth e) 0); [lia|reflexivity].
  - destruct e; try reflexivity.
    + cbn [handle_exception_within]. rewrite IH. cbn [call_depth].
      destruct frames; reflexivity.
    + cbn [handle_exception_within call_depth].
      change (Nat.leb (S (fold_right (fun x d => Nat.max (call_depth x) d) 0 items))
                      (S frames))
        with (Nat.leb (fold_right (fun x d => Nat.max (call_depth x) d) 0 items)
                      frames).
      rewrite handle_shape, rendered_list.
      induction items as [|x r IHr]; [reflexivity|].
      rewrite IH. cbn [fold_right flat_map].
      destruct (Nat.leb_spec (call_depth x) frames) as [Hx|Hx]; cbn [bind].
      * destruct (Nat.leb_spec
                    (fold_right (fun x d => Nat.max (call_depth x) d) 0 r) frames)
          as [Hr|Hr].
        -- destruct (Nat.leb_spec
                       (Nat.max (call_depth x)
                          (fold_right (fun x d => Nat.max (call_depth x) d) 0 r))
                       frames); [|lia].
           match type of IHr with
           | bind ?c _ = _ => destruct c as [more|bad]; cbn [bind] in IHr |- *
           end; [|discriminate].
           injection IHr as IHr. subst more. now rewrite errors_of_handle.
        -- destruct (Nat.leb_spec
                       (Nat.max (call_depth x)
                          (fold_right (fun x d => Nat.max (call_depth x) d) 0 r))
                       frames); [lia|].
           match type of IHr with
           | bind ?c _ = _ => destruct c as [more|bad]; cbn [bind] in IHr |- *
           end; [discriminate|exact IHr].
      * destruct (Nat.leb_spec
                    (Nat.max (call_depth x)
                       (fold_right (fun x d => Nat.max (call_depth x) d) 0 r))
                    frames); [lia|reflexivity].
Qed.


End HandlerStackProperties.

Lemma call_depth_nested_list depth : call_depth (nested_list depth) = S depth.
Proof.
  induction depth as [|d IH]; [reflexivity|].
  cbn [nested_list call_depth fold_right]. now rewrite IH.
Qed.


(** The same handler on the same stack returns for a list nested less
    deep. *)
Example handle_exception_shallow_list_returns :
  handle_exception_within repr_by_type 1000
    (VList [VList [VStr "timeout"]; VException "ValueError" "bad curie"]) true =
    Ok [("errors", VList [error_entry "timeout" ""; error_entry "bad curie" ""]);
        ("status", VStr "Warning")].
Proof. reflexivity. Qed.
